(** * Goldphin AI backend: the chat proxy of [server.js]

    A shallow embedding of the provider adaptation layer of [server.js]
    ([formatMessagesForProvider], [extractResponseText] and the handler of
    [POST /api/chat]) together with the properties its specification states
    about it.

    The handler receives whatever JSON the client posts and whatever JSON the
    provider answers, so the embedding works on untyped JavaScript values and
    follows the language's rules for truthiness, property reads, optional
    chaining, string conversion and [JSON.stringify]. Exceptions are explicit:
    a computation that may throw returns [Error + A]. The only effect of the
    handler, the outbound [fetch], is a function supplied by the environment;
    the handler returns the calls it made next to its reply. *)

From Stdlib Require Import String Ascii List Bool ZArith Lia.
Import ListNotations.
Local Open Scope string_scope.
Local Set Warnings "-register-all".

(** ** Values *)

(** A JavaScript value as [JSON.parse] builds it, plus [undefined], which
    reading a missing property yields.

    Numbers are IEEE doubles. The server does no arithmetic on them: it tests
    them for truthiness, renders them in template literals and serialises
    them. A number is therefore held as the decimal text [Number::toString]
    gives for it (["2000"], ["0.7"], ["1e+21"], ["NaN"], ["Infinity"]); both
    zeros render as ["0"].

    An object is the list of its own properties in property order, each key
    occurring once. *)
Inductive JSValue : Type :=
| JUndefined
| JNull
| JBool (b : bool)
| JNum (dec : string)
| JStr (s : string)
| JArr (elems : list JSValue)
| JObj (props : list (string * JSValue)).

(** ToBoolean. *)
Definition truthy (v : JSValue) : bool :=
  match v with
  | JUndefined | JNull => false
  | JBool b => b
  | JNum d => negb ((d =? "0") || (d =? "NaN"))
  | JStr s => negb (s =? "")
  | JArr _ | JObj _ => true
  end.

Definition nullish (v : JSValue) : bool :=
  match v with
  | JUndefined | JNull => true
  | _ => false
  end.

(** [typeof v === 'string'] *)
Definition is_string (v : JSValue) : bool :=
  match v with
  | JStr _ => true
  | _ => false
  end.

(** [v === 'lit'] for a string literal. *)
Definition strict_eq (v : JSValue) (lit : string) : bool :=
  match v with
  | JStr s => s =? lit
  | _ => false
  end.

(** [Array.isArray] *)
Definition isArray (v : JSValue) : bool :=
  match v with
  | JArr _ => true
  | _ => false
  end.

(** ** Exceptions *)

Record Error : Type := mkError { message : string }.

Definition Completion (A : Type) : Type := (Error + A)%type.

Definition ret {A : Type} (a : A) : Completion A := inr a.

Definition throw {A : Type} (e : Error) : Completion A := inl e.

Definition bind {A B : Type} (c : Completion A) (k : A -> Completion B)
  : Completion B :=
  match c with
  | inl e => inl e
  | inr a => k a
  end.

Notation "x <- c ;; k" := (bind c (fun x => k))
  (at level 61, c at next level, right associativity).

Section Traversals.
Context {A B : Type}.
Variable f : A -> Completion B.
Variable p : A -> Completion bool.

(** [Array.prototype.map] with a callback that may throw. *)
Fixpoint mapM (l : list A) : Completion (list B) :=
  match l with
  | [] => ret []
  | a :: l' => b <- f a ;; bs <- mapM l' ;; ret (b :: bs)
  end.

(** [Array.prototype.find]: stops at the first hit. *)
Fixpoint findM (l : list A) : Completion (option A) :=
  match l with
  | [] => ret None
  | a :: l' => hit <- p a ;; if hit then ret (Some a) else findM l'
  end.

(** [Array.prototype.filter]: visits every element. *)
Fixpoint filterM (l : list A) : Completion (list A) :=
  match l with
  | [] => ret []
  | a :: l' =>
      keep <- p a ;; rest <- filterM l' ;;
      ret (if keep then a :: rest else rest)
  end.
End Traversals.

(** ** Property reads *)

(** Own property [k] of an object, [undefined] when it has none. *)
Definition own (k : string) (ps : list (string * JSValue)) : JSValue :=
  match find (fun kv => fst kv =? k) ps with
  | Some kv => snd kv
  | None => JUndefined
  end.

Definition has_own (k : string) (ps : list (string * JSValue)) : bool :=
  existsb (fun kv => fst kv =? k) ps.

(** [v.k] for a value that is neither [null] nor [undefined]. The names the
    server reads ([provider], [apiKey], [model], [messages], [customEndpoint],
    [role], [content], [candidates], [parts], [text], [choices], [message],
    [response], [error]) are defined on no prototype, so only an object's own
    property can answer. *)
Definition member (v : JSValue) (k : string) : JSValue :=
  match v with
  | JObj ps => own k ps
  | _ => JUndefined
  end.

(** [v[0]] for a value that is neither [null] nor [undefined]: the first
    element of an array, the property ["0"] of an object, the first character
    of a string. *)
Definition index0 (v : JSValue) : JSValue :=
  match v with
  | JArr vs => hd JUndefined vs
  | JObj ps => own "0" ps
  | JStr (String c _) => JStr (String c EmptyString)
  | _ => JUndefined
  end.

Definition describe_nullish (v : JSValue) : string :=
  match v with
  | JNull => "null"
  | _ => "undefined"
  end.

(** [v.k]: a TypeError on [null] and [undefined]. *)
Definition get (v : JSValue) (k : string) : Completion JSValue :=
  if nullish v
  then throw (mkError ("Cannot read properties of " ++ describe_nullish v
                       ++ " (reading '" ++ k ++ "')"))
  else ret (member v k).

(** [v?.k] *)
Definition opt_get (v : JSValue) (k : string) : JSValue :=
  if nullish v then JUndefined else member v k.

(** [v?.[0]] *)
Definition opt_index0 (v : JSValue) : JSValue :=
  if nullish v then JUndefined else index0 v.

(** [a || b]: [b] is evaluated only when [a] is falsy. *)
Definition or_else (a b : Completion JSValue) : Completion JSValue :=
  v <- a ;; if truthy v then ret v else b.

Infix "<||>" := or_else (at level 62, right associativity).

(** ** String conversion *)

(** ToString, as a template literal applies it. A parsed object has no
    callable [toString] of its own: it answers ["[object Object]"] through
    [Object.prototype], unless it has an own property of that name, which
    hides the method and leaves no way to a primitive. An array joins its
    elements with commas, [null] and [undefined] giving the empty text. *)
Fixpoint ToString (v : JSValue) : Completion string :=
  match v with
  | JUndefined => ret "undefined"
  | JNull => ret "null"
  | JBool b => ret (if b then "true" else "false")
  | JNum d => ret d
  | JStr s => ret s
  | JArr vs =>
      parts <- mapM (fun e => if nullish e then ret "" else ToString e) vs ;;
      ret (String.concat "," parts)
  | JObj ps =>
      if has_own "toString" ps
      then throw (mkError "Cannot convert object to primitive value")
      else ret "[object Object]"
  end.

(** ** JSON.stringify *)

Definition dquote : string := String (ascii_of_nat 34) EmptyString.

Definition hex_digit (n : nat) : ascii :=
  if Nat.ltb n 10 then ascii_of_nat (48 + n) else ascii_of_nat (87 + n).

(** QuoteJSONString on one character. *)
Definition escape_char (c : ascii) : string :=
  let n := nat_of_ascii c in
  if Nat.eqb n 34 then "\" ++ dquote
  else if Nat.eqb n 92 then "\\"
  else if Nat.eqb n 8 then "\b"
  else if Nat.eqb n 9 then "\t"
  else if Nat.eqb n 10 then "\n"
  else if Nat.eqb n 12 then "\f"
  else if Nat.eqb n 13 then "\r"
  else if Nat.ltb n 32
       then "\u00" ++ String (hex_digit (n / 16))
                        (String (hex_digit (n mod 16)) EmptyString)
  else String c EmptyString.

Fixpoint escape (s : string) : string :=
  match s with
  | EmptyString => EmptyString
  | String c s' => escape_char c ++ escape s'
  end.

Definition quote (s : string) : string := dquote ++ escape s ++ dquote.

Definition non_finite (d : string) : bool :=
  (d =? "NaN") || (d =? "Infinity") || (d =? "-Infinity").

(** SerializeJSONProperty without indentation: [None] stands for
    [undefined], which an array renders as [null] and an object leaves out. *)
Fixpoint serialize (v : JSValue) : option string :=
  match v with
  | JUndefined => None
  | JNull => Some "null"
  | JBool b => Some (if b then "true" else "false")
  | JNum d => Some (if non_finite d then "null" else d)
  | JStr s => Some (quote s)
  | JArr vs =>
      Some ("[" ++ String.concat ","
                     (map (fun e => match serialize e with
                                    | Some t => t
                                    | None => "null"
                                    end) vs) ++ "]")
  | JObj ps =>
      Some ("{" ++ String.concat ","
                     (flat_map (fun kv => let '(k, e) := kv in
                                          match serialize e with
                                          | Some t => [quote k ++ ":" ++ t]
                                          | None => []
                                          end) ps) ++ "}")
  end.

(** [JSON.stringify(v)] *)
Definition JSON_stringify (v : JSValue) : JSValue :=
  match serialize v with
  | Some t => JStr t
  | None => JUndefined
  end.

(** ** Object literals *)

(** Defining property [k] on an object: an existing key keeps its place. *)
Fixpoint define (k : string) (v : JSValue) (ps : list (string * JSValue))
  : list (string * JSValue) :=
  match ps with
  | [] => [(k, v)]
  | (k', v') :: ps' =>
      if k' =? k then (k, v) :: ps' else (k', v') :: define k v ps'
  end.

(** [{ ...ps, ...src }]: the own properties of [src] are defined in turn;
    [undefined], [null], booleans and numbers contribute none. (A string or
    an array would contribute its index properties; the server spreads only
    object literals and [undefined].) *)
Definition spread (ps : list (string * JSValue)) (src : JSValue)
  : list (string * JSValue) :=
  match src with
  | JObj qs => fold_left (fun acc kv => define (fst kv) (snd kv) acc) qs ps
  | _ => ps
  end.

(** ** [server.js] *)

Definition API_ENDPOINTS_gemini (model : string) : string :=
  "https://generativelanguage.googleapis.com/v1beta/models/" ++ model
  ++ ":generateContent".

Definition API_ENDPOINTS_openai : string :=
  "https://api.openai.com/v1/chat/completions".

Definition API_ENDPOINTS_anthropic : string :=
  "https://api.anthropic.com/v1/messages".

(** [formatMessagesForProvider(provider, messages)]; the handler calls it
    with a string literal and the validated array. *)
Definition formatMessagesForProvider (provider : string)
  (messages : list JSValue) : Completion JSValue :=
  if provider =? "gemini" then
    contents <- mapM (fun msg =>
                        role <- get msg "role" ;;
                        content <- get msg "content" ;;
                        ret (JObj [("role", JStr (if strict_eq role "assistant"
                                                  then "model" else "user"));
                                   ("parts", JArr [JObj [("text", content)]])]))
                     messages ;;
    ret (JObj [("contents", JArr contents)])
  else if provider =? "openai" then
    ret (JObj [("messages", JArr messages);
               ("temperature", JNum "0.7");
               ("max_tokens", JNum "2000")])
  else if provider =? "anthropic" then
    found <- findM (fun m => role <- get m "role" ;;
                             ret (strict_eq role "system")) messages ;;
    conversationMsgs <- filterM (fun m => role <- get m "role" ;;
                                          ret (negb (strict_eq role "system")))
                                messages ;;
    let systemMsg := match found with Some m => m | None => JUndefined end in
    extra <- (if truthy systemMsg
              then content <- get systemMsg "content" ;;
                   ret (JObj [("system", content)])
              else ret systemMsg) ;;
    ret (JObj (spread [("messages", JArr conversationMsgs);
                       ("max_tokens", JNum "2000")] extra))
  else
    ret (JObj [("messages", JArr messages)]).

(** The body of the [try] block of [extractResponseText]. *)
Definition extractResponseText_try (provider data : JSValue)
  : Completion JSValue :=
  if strict_eq provider "gemini" then
    (candidates <- get data "candidates" ;;
     ret (opt_get (opt_index0 (opt_get (opt_get (opt_index0 candidates)
                                                "content") "parts")) "text"))
    <||> ret (JStr "No response generated")
  else if strict_eq provider "openai" then
    (choices <- get data "choices" ;;
     ret (opt_get (opt_get (opt_index0 choices) "message") "content"))
    <||> ret (JStr "No response generated")
  else if strict_eq provider "anthropic" then
    (content <- get data "content" ;;
     ret (opt_get (opt_index0 content) "text"))
    <||> ret (JStr "No response generated")
  else if strict_eq provider "custom" then
    get data "response"
    <||> get data "message"
    <||> get data "text"
    <||> (choices <- get data "choices" ;;
          ret (opt_get (opt_get (opt_index0 choices) "message") "content"))
    <||> (content <- get data "content" ;;
          ret (opt_get (opt_index0 content) "text"))
    <||> ret (JSON_stringify data)
  else
    ret (JStr "Unknown response format").

(** [extractResponseText(provider, data)] *)
Definition extractResponseText (provider data : JSValue) : JSValue :=
  match extractResponseText_try provider data with
  | inr text => text
  | inl _ => JStr "Error parsing response"
  end.

(** What the handler hands to [fetch]: the URL and the options object. *)
Record FetchCall : Type := mkCall {
  url : JSValue;
  method : string;
  headers : list (string * JSValue);
  body : JSValue
}.

(** What [fetch] resolves to: the status line and the outcome of
    [apiResponse.json()]. *)
Record ApiResponse : Type := mkResponse {
  status : Z;
  json : Completion JSValue
}.

(** [apiResponse.ok] *)
Definition ok (r : ApiResponse) : bool :=
  ((200 <=? status r) && (status r <? 300))%Z.

(** What the handler sends back: [res.status(code).json(payload)]. *)
Record Reply : Type := mkReply {
  code : Z;
  payload : JSValue
}.

Definition failure (error : JSValue) : JSValue :=
  JObj [("success", JBool false); ("error", error)].

Definition success (response : JSValue) : JSValue :=
  JObj [("success", JBool true); ("response", response)].

(** The outcome of the [switch] that picks endpoint, headers and body: an
    early reply, or the request to send. *)
Inductive Adapted : Type :=
| Respond (r : Reply)
| Request (endpoint : JSValue) (hdrs : list (string * JSValue))
          (payload : JSValue).

(** [x || 'lit'] *)
Definition or_default (x : JSValue) (lit : string) : JSValue :=
  if truthy x then x else JStr lit.

(** The [switch (provider)] of the handler. *)
Definition adapt (provider apiKey model : JSValue) (messages : list JSValue)
  (customEndpoint : JSValue) : Completion Adapted :=
  let headers := [("Content-Type", JStr "application/json")] in
  if strict_eq provider "gemini" then
    name <- ToString (or_default model "gemini-2.0-flash-exp") ;;
    key <- ToString apiKey ;;
    body <- formatMessagesForProvider "gemini" messages ;;
    ret (Request (JStr (API_ENDPOINTS_gemini name ++ "?key=" ++ key))
                 headers body)
  else if strict_eq provider "openai" then
    key <- ToString apiKey ;;
    fields <- formatMessagesForProvider "openai" messages ;;
    ret (Request (JStr API_ENDPOINTS_openai)
                 (define "Authorization" (JStr ("Bearer " ++ key)) headers)
                 (JObj (spread [("model", or_default model "gpt-4o-mini")]
                               fields)))
  else if strict_eq provider "anthropic" then
    fields <- formatMessagesForProvider "anthropic" messages ;;
    ret (Request (JStr API_ENDPOINTS_anthropic)
                 (define "anthropic-version" (JStr "2023-06-01")
                         (define "x-api-key" apiKey headers))
                 (JObj (spread [("model",
                                 or_default model "claude-3-5-sonnet-20241022")]
                               fields)))
  else if strict_eq provider "custom" then
    if negb (truthy customEndpoint) then
      ret (Respond (mkReply 400
             (failure (JStr "Custom endpoint required for custom provider"))))
    else
      key <- ToString apiKey ;;
      body <- formatMessagesForProvider "custom" messages ;;
      ret (Request customEndpoint
                   (define "Authorization" (JStr ("Bearer " ++ key)) headers)
                   body)
  else
    name <- ToString provider ;;
    ret (Respond (mkReply 400
           (failure (JStr ("Unsupported provider: " ++ name))))).

(** The elements of [messages] once [Array.isArray] has passed. *)
Definition elements (v : JSValue) : list JSValue :=
  match v with
  | JArr vs => vs
  | _ => []
  end.

(** [errorMessage] of the [!apiResponse.ok] branch. *)
Definition errorMessage (responseData : JSValue) : Completion JSValue :=
  error <- get responseData "error" ;;
  if truthy error then
    if is_string error then ret error
    else get error "message" <||> ret (JSON_stringify error)
  else ret (JStr "API request failed").

(** The [fetch] of the environment. *)
Definition Fetch : Type := FetchCall -> Completion ApiResponse.

(** The [try] block from [fetch] on: the call, the decoding of the answer
    and the reply built from it. *)
Definition relay (fetch : Fetch) (provider : JSValue) (call : FetchCall)
  : Completion Reply :=
  apiResponse <- fetch call ;;
  responseData <- json apiResponse ;;
  if negb (ok apiResponse) then
    error <- errorMessage responseData ;;
    ret (mkReply (status apiResponse) (failure error))
  else
    ret (mkReply 200 (success (extractResponseText provider responseData))).

(** The [try] block of the handler of [POST /api/chat]: the calls made and
    the reply, or the exception that left the block. *)
Definition chat_try (fetch : Fetch) (reqBody : JSValue)
  : list FetchCall * Completion Reply :=
  if nullish reqBody then
    ([], throw (mkError ("Cannot destructure property 'provider' of 'req.body'"
                         ++ " as it is " ++ describe_nullish reqBody ++ ".")))
  else
    let provider := member reqBody "provider" in
    let apiKey := member reqBody "apiKey" in
    let model := member reqBody "model" in
    let messages := member reqBody "messages" in
    let customEndpoint := member reqBody "customEndpoint" in
    if negb (truthy provider) || negb (truthy apiKey) || negb (truthy messages)
    then ([], ret (mkReply 400 (failure
            (JStr "Missing required fields: provider, apiKey, or messages"))))
    else if negb (isArray messages) || (length (elements messages) =? 0)%nat
    then ([], ret (mkReply 400 (failure
            (JStr "Messages must be a non-empty array"))))
    else
      match adapt provider apiKey model (elements messages) customEndpoint with
      | inl e => ([], throw e)
      | inr (Respond r) => ([], ret r)
      | inr (Request endpoint headers body) =>
          let call := mkCall endpoint "POST" headers (JSON_stringify body) in
          ([call], relay fetch provider call)
      end.

(** The handler of [POST /api/chat], [catch] included. *)
Definition chat (fetch : Fetch) (reqBody : JSValue)
  : list FetchCall * Reply :=
  let (calls, outcome) := chat_try fetch reqBody in
  (calls,
   match outcome with
   | inr reply => reply
   | inl e =>
       mkReply 500 (failure (JStr (if message e =? ""
                                   then "Internal server error"
                                   else message e)))
   end).

(** ** Vocabulary of the specification *)

(** A field of the request that is an optional text: left out, or a text. *)
Inductive optional_text : JSValue -> Prop :=
| text_omitted : optional_text JUndefined
| text_given (s : string) : optional_text (JStr s).

(** The model a request names: its [model] text, the provider's default when
    the text is left out or empty. *)
Definition chosen_model (model : JSValue) (default : string) : string :=
  match model with
  | JStr m => if m =? "" then default else m
  | _ => default
  end.

(** The Gemini entry of one message: role [model] for an assistant message,
    [user] for any other. *)
Definition gemini_content (msg : JSValue) : JSValue :=
  JObj [("role", JStr (if strict_eq (member msg "role") "assistant"
                       then "model" else "user"));
        ("parts", JArr [JObj [("text", member msg "content")]])].

Definition is_system (msg : JSValue) : bool :=
  strict_eq (member msg "role") "system".

(** One step of a field path: a named field, or the first element. *)
Inductive Step : Type :=
| Key (k : string)
| First.

Definition step (v : JSValue) (s : Step) : JSValue :=
  match s with
  | Key k => opt_get v k
  | First => opt_index0 v
  end.

(** The value a body holds at a path, [undefined] when the path leaves it. *)
Definition at_path (path : list Step) (data : JSValue) : JSValue :=
  fold_left step path data.

(** The table of extraction paths, in the order they are tried. *)
Definition paths (provider : string) : list (list Step) :=
  if provider =? "gemini" then
    [[Key "candidates"; First; Key "content"; Key "parts"; First; Key "text"]]
  else if provider =? "openai" then
    [[Key "choices"; First; Key "message"; Key "content"]]
  else if provider =? "anthropic" then
    [[Key "content"; First; Key "text"]]
  else if provider =? "custom" then
    [[Key "response"]; [Key "message"]; [Key "text"];
     [Key "choices"; First; Key "message"; Key "content"];
     [Key "content"; First; Key "text"]]
  else [].

Definition path_values (provider : string) (data : JSValue)
  : list JSValue :=
  map (fun path => at_path path data) (paths provider).

Definition present (v : JSValue) : bool :=
  match v with
  | JUndefined => false
  | _ => true
  end.

(** "First present wins": the first value that is there at all. *)
Definition first_present (vs : list JSValue) (fallback : JSValue) : JSValue :=
  match find present vs with
  | Some v => v
  | None => fallback
  end.

(** The first value that is truthy. *)
Definition first_truthy (vs : list JSValue) (fallback : JSValue) : JSValue :=
  match find truthy vs with
  | Some v => v
  | None => fallback
  end.

Definition providers : list string :=
  ["gemini"; "openai"; "anthropic"; "custom"].

(** The two shapes of a ChatResult, the carried value being a text. *)
Definition is_ChatResult (v : JSValue) : bool :=
  match v with
  | JObj [("success", JBool true); ("response", JStr _)] => true
  | JObj [("success", JBool false); ("error", JStr _)] => true
  | _ => false
  end.

Definition missing_fields : Reply :=
  mkReply 400
    (failure (JStr "Missing required fields: provider, apiKey, or messages")).

Definition not_an_array : Reply :=
  mkReply 400 (failure (JStr "Messages must be a non-empty array")).

Definition endpoint_required : Reply :=
  mkReply 400 (failure (JStr "Custom endpoint required for custom provider")).

(** The reply of the [catch] block. *)
Definition server_error (e : Error) : Reply :=
  mkReply 500 (failure (JStr (if message e =? "" then "Internal server error"
                              else message e))).

(** [errorMessage] on a body other than [null], without the exceptions. *)
Definition upstream_message (data : JSValue) : JSValue :=
  let error := member data "error" in
  if truthy error then
    if is_string error then error
    else if truthy (member error "message") then member error "message"
         else JSON_stringify error
  else JStr "API request failed".

(** ** Sample requests and upstream behaviours *)

Definition chat_message (role content : string) : JSValue :=
  JObj [("role", JStr role); ("content", JStr content)].

Definition request (provider : string) (rest : list (string * JSValue))
  : JSValue :=
  JObj (("provider", JStr provider) :: ("apiKey", JStr "k") :: rest).

Definition hello : (string * JSValue) :=
  ("messages", JArr [chat_message "user" "hi"]).

(** [{choices: [{message: {content}}]}] *)
Definition completion (content : JSValue) : JSValue :=
  JObj [("choices", JArr [JObj [("message", JObj [("content", content)])]])].

(** A message content given as a list of parts. *)
Definition text_parts : JSValue :=
  JArr [JObj [("type", JStr "text"); ("text", JStr "hi")]].

(** An upstream that answers every call with the given status and body. *)
Definition answering (status : Z) (data : JSValue) : Fetch :=
  fun _ => ret (mkResponse status (ret data)).

(** An upstream that cannot be reached. *)
Definition unreachable : Fetch :=
  fun _ => throw (mkError "request to upstream failed, reason: ECONNREFUSED").

(** * Properties *)

(** ** Reads and traversals that cannot throw *)

Lemma append_assoc (a b c : string) : (a ++ b) ++ c = a ++ (b ++ c).
Proof.
  induction a as [|ch a IH]; simpl; [reflexivity | now rewrite IH].
Qed.

Lemma get_defined (v : JSValue) (k : string) :
  nullish v = false -> get v k = inr (member v k).
Proof.
  intros Hv. unfold get. rewrite Hv. reflexivity.
Qed.

Lemma opt_get_defined (v : JSValue) (k : string) :
  nullish v = false -> opt_get v k = member v k.
Proof.
  intros Hv. unfold opt_get. rewrite Hv. reflexivity.
Qed.

Lemma mapM_pure {A B : Type} (f : A -> Completion B) (g : A -> B)
  (l : list A) :
  Forall (fun a => f a = inr (g a)) l -> mapM f l = inr (map g l).
Proof.
  induction 1 as [|a l Ha _ IH]; simpl.
  - reflexivity.
  - rewrite Ha. simpl. rewrite IH. reflexivity.
Qed.

Lemma findM_pure {A : Type} (p : A -> Completion bool) (q : A -> bool)
  (l : list A) :
  Forall (fun a => p a = inr (q a)) l -> findM p l = inr (find q l).
Proof.
  induction 1 as [|a l Ha _ IH]; simpl.
  - reflexivity.
  - rewrite Ha. simpl. destruct (q a); [reflexivity | exact IH].
Qed.

Lemma filterM_pure {A : Type} (p : A -> Completion bool) (q : A -> bool)
  (l : list A) :
  Forall (fun a => p a = inr (q a)) l -> filterM p l = inr (filter q l).
Proof.
  induction 1 as [|a l Ha _ IH]; simpl.
  - reflexivity.
  - rewrite Ha. simpl. rewrite IH. simpl. destruct (q a); reflexivity.
Qed.

Lemma find_is_system_object (l : list JSValue) (m : JSValue) :
  find is_system l = Some m -> truthy m = true /\ nullish m = false.
Proof.
  intros H. apply find_some in H. destruct H as [_ H].
  destruct m; try discriminate H. split; reflexivity.
Qed.

(** ** Request adaptation *)

Lemma format_gemini (messages : list JSValue) :
  Forall (fun m => nullish m = false) messages ->
  formatMessagesForProvider "gemini" messages
  = inr (JObj [("contents", JArr (map gemini_content messages))]).
Proof.
  intros H. unfold formatMessagesForProvider. simpl.
  rewrite (mapM_pure _ gemini_content).
  - reflexivity.
  - eapply Forall_impl; [|exact H]. intros m Hm. cbv beta.
    rewrite !(get_defined _ _ Hm). reflexivity.
Qed.

Lemma format_anthropic (messages : list JSValue) :
  Forall (fun m => nullish m = false) messages ->
  formatMessagesForProvider "anthropic" messages
  = inr (JObj ([("messages",
                 JArr (filter (fun m => negb (is_system m)) messages));
                ("max_tokens", JNum "2000")]
               ++ match find is_system messages with
                  | Some s => [("system", member s "content")]
                  | None => []
                  end)).
Proof.
  intros H. unfold formatMessagesForProvider. simpl.
  rewrite (findM_pure _ is_system),
    (filterM_pure _ (fun m => negb (is_system m))).
  - simpl. destruct (find is_system messages) as [s|] eqn:Hs.
    + destruct (find_is_system_object _ _ Hs) as [Ht Hn].
      rewrite Ht, (get_defined _ _ Hn). reflexivity.
    + reflexivity.
  - eapply Forall_impl; [|exact H]. intros m Hm. cbv beta.
    rewrite (get_defined _ _ Hm). reflexivity.
  - eapply Forall_impl; [|exact H]. intros m Hm. cbv beta.
    rewrite (get_defined _ _ Hm). reflexivity.
Qed.

Lemma chosen_model_text (model : JSValue) (default : string) :
  optional_text model ->
  or_default model default = JStr (chosen_model model default).
Proof.
  intros [|m]; [reflexivity|].
  unfold or_default, chosen_model. simpl.
  destruct (m =? ""); reflexivity.
Qed.

(** C1. For provider gemini the adaptation yields the URL
    [{base}/{model}:generateContent?key={apiKey}], the model being the
    default ["gemini-2.0-flash-exp"] when the request names none; the API key
    appears in the URL only (the headers carry the content type and nothing
    else, the body is built from the messages alone); the body is
    [{contents: [{role, parts: [{text}]}]}] with role ["model"] for an
    assistant message and ["user"] for every other one, a system message
    included. *)
Theorem gemini_adaptation (apiKey : string) (model : JSValue)
  (messages : list JSValue) (customEndpoint : JSValue) :
  optional_text model ->
  messages <> [] ->
  Forall (fun m => nullish m = false) messages ->
  adapt (JStr "gemini") (JStr apiKey) model messages customEndpoint
  = inr (Request
           (JStr ("https://generativelanguage.googleapis.com/v1beta/models/"
                  ++ chosen_model model "gemini-2.0-flash-exp"
                  ++ ":generateContent?key=" ++ apiKey))
           [("Content-Type", JStr "application/json")]
           (JObj [("contents", JArr (map gemini_content messages))]))
  /\ chosen_model JUndefined "gemini-2.0-flash-exp" = "gemini-2.0-flash-exp"
  /\ (forall content,
        gemini_content (JObj [("role", JStr "assistant"); ("content", content)])
        = JObj [("role", JStr "model");
                ("parts", JArr [JObj [("text", content)]])])
  /\ (forall content,
        gemini_content (JObj [("role", JStr "system"); ("content", content)])
        = JObj [("role", JStr "user");
                ("parts", JArr [JObj [("text", content)]])])
  /\ (forall msg,
        member msg "role" <> JStr "assistant" ->
        member (gemini_content msg) "role" = JStr "user").
Proof.
  intros Hmodel _ Hmsgs. repeat split.
  - unfold adapt. simpl strict_eq. cbv iota.
    rewrite (chosen_model_text _ _ Hmodel). simpl ToString. simpl bind.
    rewrite (format_gemini _ Hmsgs). simpl. unfold API_ENDPOINTS_gemini.
    rewrite !append_assoc. reflexivity.
  - intros msg Hrole. unfold gemini_content. simpl.
    destruct (member msg "role") as [| | | |s| |]; try reflexivity.
    simpl. destruct (String.eqb_spec s "assistant") as [->|]; [|reflexivity].
    contradiction Hrole. reflexivity.
Qed.

Lemma gemini_adaptation_witness :
  adapt (JStr "gemini") (JStr "k") JUndefined
        [chat_message "system" "S"; chat_message "assistant" "A"] JUndefined
  = inr (Request
           (JStr ("https://generativelanguage.googleapis.com/v1beta/models/"
                  ++ "gemini-2.0-flash-exp:generateContent?key=k"))
           [("Content-Type", JStr "application/json")]
           (JObj [("contents",
                   JArr [JObj [("role", JStr "user");
                               ("parts", JArr [JObj [("text", JStr "S")]])];
                         JObj [("role", JStr "model");
                               ("parts", JArr [JObj [("text", JStr "A")]])]])])).
Proof.
  apply (gemini_adaptation "k" JUndefined
           [chat_message "system" "S"; chat_message "assistant" "A"]
           JUndefined).
  - constructor.
  - discriminate.
  - repeat constructor.
Defined.

(** C2. For provider anthropic the adaptation puts the content of the first
    system message, when there is one, in a top-level [system] field, makes
    [messages] the input messages whose role is not [system], in their order,
    sets [max_tokens] to 2000 and [model] to the default
    ["claude-3-5-sonnet-20241022"] when the request names none. For the input
    [[{role:"system",content:"S"},{role:"user",content:"U"}]] the body has
    [system:"S"] and [messages:[{role:"user",content:"U"}]]. *)
Theorem anthropic_adaptation (apiKey model : JSValue)
  (messages : list JSValue) (customEndpoint : JSValue) :
  optional_text model ->
  Forall (fun m => nullish m = false) messages ->
  adapt (JStr "anthropic") apiKey model messages customEndpoint
  = inr (Request
           (JStr "https://api.anthropic.com/v1/messages")
           [("Content-Type", JStr "application/json");
            ("x-api-key", apiKey);
            ("anthropic-version", JStr "2023-06-01")]
           (JObj ([("model",
                    JStr (chosen_model model "claude-3-5-sonnet-20241022"));
                   ("messages",
                    JArr (filter (fun m => negb (is_system m)) messages));
                   ("max_tokens", JNum "2000")]
                  ++ match find is_system messages with
                     | Some s => [("system", member s "content")]
                     | None => []
                     end)))
  /\ chosen_model JUndefined "claude-3-5-sonnet-20241022"
     = "claude-3-5-sonnet-20241022"
  /\ adapt (JStr "anthropic") apiKey JUndefined
           [JObj [("role", JStr "system"); ("content", JStr "S")];
            JObj [("role", JStr "user"); ("content", JStr "U")]]
           customEndpoint
     = inr (Request
              (JStr "https://api.anthropic.com/v1/messages")
              [("Content-Type", JStr "application/json");
               ("x-api-key", apiKey);
               ("anthropic-version", JStr "2023-06-01")]
              (JObj [("model", JStr "claude-3-5-sonnet-20241022");
                     ("messages",
                      JArr [JObj [("role", JStr "user");
                                  ("content", JStr "U")]]);
                     ("max_tokens", JNum "2000");
                     ("system", JStr "S")])).
Proof.
  intros Hmodel Hmsgs. repeat split.
  unfold adapt. simpl strict_eq. cbv iota.
  rewrite (format_anthropic _ Hmsgs), (chosen_model_text _ _ Hmodel).
  destruct (find is_system messages); reflexivity.
Qed.

Lemma anthropic_adaptation_witness :
  adapt (JStr "anthropic") (JStr "k") (JStr "claude-3-opus")
        [chat_message "user" "U"; chat_message "system" "S";
         chat_message "assistant" "A"; chat_message "system" "T"]
        JUndefined
  = inr (Request
           (JStr "https://api.anthropic.com/v1/messages")
           [("Content-Type", JStr "application/json");
            ("x-api-key", JStr "k");
            ("anthropic-version", JStr "2023-06-01")]
           (JObj [("model", JStr "claude-3-opus");
                  ("messages", JArr [chat_message "user" "U";
                                     chat_message "assistant" "A"]);
                  ("max_tokens", JNum "2000");
                  ("system", JStr "S")])).
Proof.
  apply (anthropic_adaptation (JStr "k") (JStr "claude-3-opus")
           [chat_message "user" "U"; chat_message "system" "S";
            chat_message "assistant" "A"; chat_message "system" "T"]
           JUndefined).
  - constructor.
  - repeat constructor.
Defined.

(** ** Validation *)

Lemma chat_missing (fetch : Fetch) (reqBody : JSValue) :
  nullish reqBody = false ->
  negb (truthy (member reqBody "provider"))
  || negb (truthy (member reqBody "apiKey"))
  || negb (truthy (member reqBody "messages")) = true ->
  chat fetch reqBody = ([], missing_fields).
Proof.
  intros Hbody Hfalsy. unfold chat, chat_try.
  rewrite Hbody, Hfalsy. reflexivity.
Qed.

Lemma chat_passes_presence (fetch : Fetch) (reqBody : JSValue) :
  nullish reqBody = false ->
  truthy (member reqBody "provider") = true ->
  truthy (member reqBody "apiKey") = true ->
  truthy (member reqBody "messages") = true ->
  chat_try fetch reqBody
  = let provider := member reqBody "provider" in
    let messages := member reqBody "messages" in
    if negb (isArray messages) || (length (elements messages) =? 0)%nat
    then ([], ret not_an_array)
    else
      match adapt provider (member reqBody "apiKey") (member reqBody "model")
                  (elements messages) (member reqBody "customEndpoint") with
      | inl e => ([], throw e)
      | inr (Respond r) => ([], ret r)
      | inr (Request endpoint headers body) =>
          let call := mkCall endpoint "POST" headers (JSON_stringify body) in
          ([call], relay fetch provider call)
      end.
Proof.
  intros Hbody Hp Hk Hm. unfold chat_try.
  rewrite Hbody, Hp, Hk, Hm. reflexivity.
Qed.

(** C7, as the code has it. When [provider], [apiKey] or [messages] is absent
    or, more generally, falsy, the handler answers 400 with "Missing required
    fields: provider, apiKey, or messages"; when the three are truthy and
    [messages] is not a non-empty array it answers 400 with "Messages must be
    a non-empty array"; in both cases nothing is sent upstream. *)
Theorem validation_rejects (fetch : Fetch) (reqBody : JSValue) :
  nullish reqBody = false ->
  (member reqBody "provider" = JUndefined
   \/ member reqBody "apiKey" = JUndefined
   \/ member reqBody "messages" = JUndefined ->
   chat fetch reqBody = ([], missing_fields))
  /\ (truthy (member reqBody "provider") = false
      \/ truthy (member reqBody "apiKey") = false
      \/ truthy (member reqBody "messages") = false ->
      chat fetch reqBody = ([], missing_fields))
  /\ (truthy (member reqBody "provider") = true ->
      truthy (member reqBody "apiKey") = true ->
      truthy (member reqBody "messages") = true ->
      isArray (member reqBody "messages") = false
      \/ member reqBody "messages" = JArr [] ->
      chat fetch reqBody = ([], not_an_array)).
Proof.
  intros Hbody.
  assert (Hfalsy : truthy (member reqBody "provider") = false
                   \/ truthy (member reqBody "apiKey") = false
                   \/ truthy (member reqBody "messages") = false ->
                   chat fetch reqBody = ([], missing_fields)).
  { intros H. apply chat_missing; [exact Hbody|].
    destruct H as [H | [H | H]]; rewrite H; simpl;
      rewrite ?orb_true_r; reflexivity. }
  split; [|split].
  - intros H. apply Hfalsy.
    destruct H as [H | [H | H]]; rewrite H; auto.
  - exact Hfalsy.
  - intros Hp Hk Hm Hshape. unfold chat.
    rewrite (chat_passes_presence _ _ Hbody Hp Hk Hm). cbv zeta.
    destruct Hshape as [H | H]; rewrite H; reflexivity.
Qed.

Lemma validation_rejects_witness :
  chat unreachable (JObj [("messages", JArr [chat_message "user" "hi"])])
  = ([], missing_fields)
  /\ chat unreachable (request "gemini" [("messages", JArr [])])
     = ([], not_an_array)
  /\ chat unreachable (request "gemini" [("messages", JStr "hi")])
     = ([], not_an_array).
Proof.
  split; [|split].
  - apply (validation_rejects unreachable
             (JObj [("messages", JArr [chat_message "user" "hi"])])
             eq_refl).
    left. reflexivity.
  - apply (validation_rejects unreachable
             (request "gemini" [("messages", JArr [])]) eq_refl);
      try reflexivity.
    right. reflexivity.
  - apply (validation_rejects unreachable
             (request "gemini" [("messages", JStr "hi")]) eq_refl);
      try reflexivity.
    left. reflexivity.
Defined.

(** C7 as stated fails: a [messages] field that is present and is not an
    array, the empty text, gets the missing-fields error, not the
    non-empty-array one. *)
Lemma empty_text_messages_reported_missing :
  present (member (request "gemini" [("messages", JStr "")]) "messages") = true
  /\ isArray (member (request "gemini" [("messages", JStr "")]) "messages")
     = false
  /\ chat unreachable (request "gemini" [("messages", JStr "")])
     = ([], missing_fields)
  /\ chat unreachable (request "gemini" [("messages", JStr "")])
     <> ([], not_an_array).
Proof.
  repeat split. discriminate.
Qed.

(** C10. Presence is tested by truthiness: a request whose [provider] or
    [apiKey] is the empty text is rejected with 400 and "Missing required
    fields: provider, apiKey, or messages", exactly as when the field is
    absent. *)
Theorem empty_text_counts_as_missing (fetch : Fetch) (reqBody v : JSValue) :
  nullish reqBody = false ->
  v = JStr "" \/ v = JUndefined ->
  member reqBody "provider" = v \/ member reqBody "apiKey" = v ->
  chat fetch reqBody = ([], missing_fields).
Proof.
  intros Hbody Hv Hfield. apply chat_missing; [exact Hbody|].
  destruct Hfield as [H | H]; rewrite H;
    destruct Hv as [-> | ->]; simpl; rewrite ?orb_true_r; reflexivity.
Qed.

Lemma empty_text_counts_as_missing_witness :
  chat (answering 200 (JObj []))
       (JObj [("provider", JStr ""); ("apiKey", JStr "k"); hello])
  = ([], missing_fields)
  /\ chat (answering 200 (JObj []))
          (JObj [("provider", JStr "gemini"); ("apiKey", JStr ""); hello])
     = ([], missing_fields)
  /\ chat (answering 200 (JObj []))
          (JObj [("provider", JStr "gemini"); hello])
     = ([], missing_fields).
Proof.
  split; [|split].
  - apply (empty_text_counts_as_missing (answering 200 (JObj []))
             (JObj [("provider", JStr ""); ("apiKey", JStr "k"); hello])
             (JStr "") eq_refl (or_introl eq_refl) (or_introl eq_refl)).
  - apply (empty_text_counts_as_missing (answering 200 (JObj []))
             (JObj [("provider", JStr "gemini"); ("apiKey", JStr ""); hello])
             (JStr "") eq_refl (or_introl eq_refl) (or_intror eq_refl)).
  - apply (empty_text_counts_as_missing (answering 200 (JObj []))
             (JObj [("provider", JStr "gemini"); hello])
             JUndefined eq_refl (or_intror eq_refl) (or_intror eq_refl)).
Defined.

(** ** Adaptation failures *)

Ltac split_binds :=
  repeat match goal with
         | |- context [bind ?c _] => destruct c; simpl
         end.

Lemma known_provider_requests (p : string)
  (apiKey model : JSValue) (messages : list JSValue)
  (customEndpoint : JSValue) (r : Reply) :
  In p providers ->
  (p = "custom" -> truthy customEndpoint = true) ->
  adapt (JStr p) apiKey model messages customEndpoint <> inr (Respond r).
Proof.
  intros Hin Hcustom.
  destruct Hin as [<- | [<- | [<- | [<- | []]]]]; unfold adapt; simpl.
  - split_binds; discriminate.
  - split_binds; discriminate.
  - split_binds; discriminate.
  - rewrite (Hcustom eq_refl). simpl. split_binds; discriminate.
Qed.

Lemma unknown_provider_refused (p : string)
  (apiKey model : JSValue) (messages : list JSValue)
  (customEndpoint : JSValue) :
  ~ In p providers ->
  adapt (JStr p) apiKey model messages customEndpoint
  = inr (Respond (mkReply 400
                    (failure (JStr ("Unsupported provider: " ++ p))))).
Proof.
  intros Hout. unfold adapt. simpl.
  destruct (String.eqb_spec p "gemini") as [->|_];
    [contradiction Hout; simpl; auto|].
  destruct (String.eqb_spec p "openai") as [->|_];
    [contradiction Hout; simpl; auto|].
  destruct (String.eqb_spec p "anthropic") as [->|_];
    [contradiction Hout; simpl; auto|].
  destruct (String.eqb_spec p "custom") as [->|_];
    [contradiction Hout; simpl; auto 6|].
  reflexivity.
Qed.

Lemma custom_without_endpoint (apiKey model : JSValue)
  (messages : list JSValue) (customEndpoint : JSValue) :
  truthy customEndpoint = false ->
  adapt (JStr "custom") apiKey model messages customEndpoint
  = inr (Respond endpoint_required).
Proof.
  intros H. unfold adapt. simpl. rewrite H. reflexivity.
Qed.

Lemma providers_dec (p : string) : {In p providers} + {~ In p providers}.
Proof.
  apply in_dec. exact string_dec.
Qed.

(** C8, as the code has it. For a request that passes validation and whose
    provider is a text, adaptation ends in a 400 reply with nothing sent
    upstream exactly when the provider is [custom] and [customEndpoint] is
    absent or otherwise falsy (the reply says "Custom endpoint required for
    custom provider"), or the provider is none of gemini, openai, anthropic,
    custom (the reply says "Unsupported provider: " followed by the
    provider). *)
Theorem adaptation_fails_exactly (fetch : Fetch) (reqBody : JSValue)
  (p : string) (messages : list JSValue) :
  nullish reqBody = false ->
  member reqBody "provider" = JStr p ->
  p <> "" ->
  truthy (member reqBody "apiKey") = true ->
  member reqBody "messages" = JArr messages ->
  messages <> [] ->
  (fst (chat fetch reqBody) = [] /\ code (snd (chat fetch reqBody)) = 400%Z
   <-> (p = "custom" /\ truthy (member reqBody "customEndpoint") = false)
       \/ ~ In p providers)
  /\ (p = "custom" ->
      truthy (member reqBody "customEndpoint") = false ->
      chat fetch reqBody = ([], endpoint_required))
  /\ (~ In p providers ->
      chat fetch reqBody
      = ([], mkReply 400 (failure (JStr ("Unsupported provider: " ++ p))))).
Proof.
  intros Hbody Hp Hne Hkey Hmsgs Hmany.
  assert (Htry : chat_try fetch reqBody
                 = match adapt (JStr p) (member reqBody "apiKey")
                               (member reqBody "model") messages
                               (member reqBody "customEndpoint") with
                   | inl e => ([], throw e)
                   | inr (Respond r) => ([], ret r)
                   | inr (Request endpoint headers body) =>
                       let call := mkCall endpoint "POST" headers
                                          (JSON_stringify body) in
                       ([call], relay fetch (JStr p) call)
                   end).
  { rewrite chat_passes_presence; trivial.
    - rewrite Hp, Hmsgs. cbv zeta. simpl.
      destruct messages; [contradiction Hmany; reflexivity | reflexivity].
    - rewrite Hp. simpl. destruct (String.eqb_spec p ""); [contradiction|].
      reflexivity.
    - rewrite Hmsgs. reflexivity. }
  assert (Hcustom : p = "custom" ->
                    truthy (member reqBody "customEndpoint") = false ->
                    chat fetch reqBody = ([], endpoint_required)).
  { intros -> Hce. unfold chat. rewrite Htry.
    rewrite (custom_without_endpoint _ _ _ _ Hce). reflexivity. }
  assert (Hunknown : ~ In p providers ->
                     chat fetch reqBody
                     = ([], mkReply 400
                              (failure (JStr ("Unsupported provider: " ++ p))))).
  { intros Hout. unfold chat. rewrite Htry.
    rewrite (unknown_provider_refused _ _ _ _ _ Hout). reflexivity. }
  split; [|split; assumption].
  split.
  - intros [Hcalls Hcode].
    destruct (providers_dec p) as [Hin|Hout]; [|right; exact Hout].
    left.
    destruct (string_dec p "custom") as [Hc|Hc].
    + split; [exact Hc|].
      destruct (truthy (member reqBody "customEndpoint")) eqn:Hce;
        [|reflexivity].
      exfalso. revert Hcalls Hcode. unfold chat. rewrite Htry.
      pose proof (fun r => known_provider_requests p
                             (member reqBody "apiKey") (member reqBody "model")
                             messages (member reqBody "customEndpoint") r Hin
                             (fun _ => Hce)) as Hreq.
      destruct (adapt (JStr p) _ _ _ _) as [e|[r|endpoint hdrs body]]; simpl.
      * intros _ H. discriminate H.
      * contradiction (Hreq r). reflexivity.
      * intros H. discriminate H.
    + exfalso. revert Hcalls Hcode. unfold chat. rewrite Htry.
      pose proof (fun r => known_provider_requests p
                             (member reqBody "apiKey") (member reqBody "model")
                             messages (member reqBody "customEndpoint") r Hin
                             (fun H => False_ind _ (Hc H))) as Hreq.
      destruct (adapt (JStr p) _ _ _ _) as [e|[r|endpoint hdrs body]]; simpl.
      * intros _ H. discriminate H.
      * contradiction (Hreq r). reflexivity.
      * intros H. discriminate H.
  - intros [[Hc Hce] | Hout].
    + rewrite (Hcustom Hc Hce). split; reflexivity.
    + rewrite (Hunknown Hout). split; reflexivity.
Qed.

Lemma adaptation_fails_exactly_witness :
  chat unreachable (request "custom" [hello; ("customEndpoint", JNull)])
  = ([], endpoint_required)
  /\ chat unreachable (request "mistral" [hello])
     = ([], mkReply 400 (failure (JStr "Unsupported provider: mistral"))).
Proof.
  split.
  - apply (adaptation_fails_exactly unreachable
             (request "custom" [hello; ("customEndpoint", JNull)])
             "custom" [chat_message "user" "hi"]); try reflexivity;
      discriminate.
  - apply (adaptation_fails_exactly unreachable (request "mistral" [hello])
             "mistral" [chat_message "user" "hi"]); try reflexivity;
      try discriminate.
    simpl. intros [H | [H | [H | [H | []]]]]; discriminate H.
Defined.

(** C8 as stated fails: with provider [custom] and a [customEndpoint] that is
    present, the empty text, adaptation fails all the same. *)
Lemma present_endpoint_still_required :
  present (member (request "custom" [hello; ("customEndpoint", JStr "")])
                  "customEndpoint") = true
  /\ In "custom" providers
  /\ chat (answering 200 (JObj []))
          (request "custom" [hello; ("customEndpoint", JStr "")])
     = ([], endpoint_required).
Proof.
  repeat split. simpl. auto.
Qed.

(** C9, as the code has it. For provider [custom] with a [customEndpoint]
    that is present and not empty (truthy), the adapted request goes to that
    endpoint, carries [Authorization: Bearer {apiKey}] and has the body
    [{messages}] with the input messages unchanged; [model] plays no part. *)
Theorem custom_adaptation (apiKey : JSValue) (key : string)
  (model : JSValue) (messages : list JSValue) (customEndpoint : JSValue) :
  truthy customEndpoint = true ->
  ToString apiKey = inr key ->
  adapt (JStr "custom") apiKey model messages customEndpoint
  = inr (Request customEndpoint
           [("Content-Type", JStr "application/json");
            ("Authorization", JStr ("Bearer " ++ key))]
           (JObj [("messages", JArr messages)])).
Proof.
  intros Hce Hkey. unfold adapt. simpl. rewrite Hce, Hkey. reflexivity.
Qed.

Lemma custom_adaptation_witness :
  adapt (JStr "custom") (JStr "k") (JStr "llama-3")
        [chat_message "system" "S"; chat_message "user" "U"]
        (JStr "http://localhost:8080/v1/chat")
  = inr (Request (JStr "http://localhost:8080/v1/chat")
           [("Content-Type", JStr "application/json");
            ("Authorization", JStr "Bearer k")]
           (JObj [("messages", JArr [chat_message "system" "S";
                                     chat_message "user" "U"])])).
Proof.
  apply (custom_adaptation (JStr "k") "k" (JStr "llama-3")
           [chat_message "system" "S"; chat_message "user" "U"]
           (JStr "http://localhost:8080/v1/chat") eq_refl eq_refl).
Defined.

(** C9 as stated fails: a [customEndpoint] that is present but empty is not
    targeted; no request is adapted and nothing is sent. *)
Lemma empty_endpoint_not_targeted :
  present (JStr "") = true
  /\ adapt (JStr "custom") (JStr "k") (JStr "llama-3")
           [chat_message "user" "hi"] (JStr "")
     = inr (Respond endpoint_required)
  /\ fst (chat unreachable
               (request "custom" [("model", JStr "llama-3"); hello;
                                  ("customEndpoint", JStr "")]))
     = [].
Proof.
  repeat split.
Qed.

(** ** Response extraction *)

Lemma extract_known (p : string) (data : JSValue) :
  In p providers ->
  nullish data = false ->
  extractResponseText_try (JStr p) data
  = inr (first_truthy (path_values p data)
           (if p =? "custom" then JSON_stringify data
            else JStr "No response generated")).
Proof.
  intros Hin Hdata.
  destruct Hin as [<- | [<- | [<- | [<- | []]]]];
    unfold extractResponseText_try, or_else; simpl strict_eq; cbv iota;
    rewrite ?(get_defined _ _ Hdata); simpl bind;
    unfold first_truthy, path_values, paths, at_path; simpl;
    rewrite ?(opt_get_defined data _ Hdata);
    repeat match goal with
           | |- context [truthy ?v] => destruct (truthy v); try reflexivity
           end.
Qed.

Lemma extract_unknown (provider data : JSValue) :
  (forall p, In p providers -> provider <> JStr p) ->
  extractResponseText provider data = JStr "Unknown response format".
Proof.
  intros Hout. unfold extractResponseText, extractResponseText_try.
  destruct provider as [| | | |s| |]; try reflexivity. simpl.
  destruct (String.eqb_spec s "gemini") as [->|_];
    [contradiction (Hout "gemini"); simpl; auto|].
  destruct (String.eqb_spec s "openai") as [->|_];
    [contradiction (Hout "openai"); simpl; auto|].
  destruct (String.eqb_spec s "anthropic") as [->|_];
    [contradiction (Hout "anthropic"); simpl; auto|].
  destruct (String.eqb_spec s "custom") as [->|_];
    [contradiction (Hout "custom"); simpl; auto 6|].
  reflexivity.
Qed.

Lemma extract_nullish (p : string) (data : JSValue) :
  In p providers ->
  nullish data = true ->
  exists e, extractResponseText_try (JStr p) data = inl e.
Proof.
  intros Hin Hdata.
  destruct Hin as [<- | [<- | [<- | [<- | []]]]];
    unfold extractResponseText_try, or_else, get; simpl strict_eq; cbv iota;
    rewrite Hdata; simpl; eexists; reflexivity.
Qed.

(** C3, as the code has it. For a body other than [null], extraction returns
    the value at the first of the provider's paths, in the stated order, that
    holds a truthy value (not [undefined], [null], [false], zero, NaN or the
    empty text); when none does it returns "No response generated" for
    gemini, openai and anthropic, and the whole body serialised for custom,
    whose paths are [response], [message], [text],
    [choices[0].message.content], [content[0].text]. For any other provider
    it returns "Unknown response format", whatever the body. *)
Theorem extraction_first_truthy (data : JSValue) :
  (nullish data = false ->
   extractResponseText (JStr "gemini") data
   = first_truthy
       [at_path [Key "candidates"; First; Key "content"; Key "parts"; First;
                 Key "text"] data]
       (JStr "No response generated")
   /\ extractResponseText (JStr "openai") data
      = first_truthy
          [at_path [Key "choices"; First; Key "message"; Key "content"] data]
          (JStr "No response generated")
   /\ extractResponseText (JStr "anthropic") data
      = first_truthy
          [at_path [Key "content"; First; Key "text"] data]
          (JStr "No response generated")
   /\ extractResponseText (JStr "custom") data
      = first_truthy
          [at_path [Key "response"] data;
           at_path [Key "message"] data;
           at_path [Key "text"] data;
           at_path [Key "choices"; First; Key "message"; Key "content"] data;
           at_path [Key "content"; First; Key "text"] data]
          (JSON_stringify data))
  /\ (forall provider,
        (forall p, In p providers -> provider <> JStr p) ->
        extractResponseText provider data = JStr "Unknown response format").
Proof.
  split.
  - intros Hdata. unfold extractResponseText.
    rewrite !extract_known by (simpl; auto 6 || exact Hdata).
    repeat split.
  - intros provider. apply extract_unknown.
Qed.

Lemma extraction_first_truthy_witness :
  extractResponseText (JStr "custom")
    (JObj [("response", JStr ""); ("message", JStr "m"); ("text", JStr "t")])
  = JStr "m"
  /\ extractResponseText (JStr "gemini")
       (JObj [("candidates",
               JArr [JObj [("content",
                            JObj [("parts",
                                   JArr [JObj [("text", JStr "hi")]])])]])])
     = JStr "hi"
  /\ extractResponseText (JStr "gemini") (JObj [])
     = JStr "No response generated".
Proof.
  split; [|split].
  - apply (proj1 (extraction_first_truthy
                    (JObj [("response", JStr ""); ("message", JStr "m");
                           ("text", JStr "t")])) eq_refl).
  - apply (proj1 (extraction_first_truthy
                    (JObj [("candidates",
                            JArr [JObj [("content",
                                         JObj [("parts",
                                                JArr [JObj [("text",
                                                             JStr "hi")]])])]])]))
                 eq_refl).
  - apply (proj1 (extraction_first_truthy (JObj [])) eq_refl).
Defined.

(** C3 as stated fails: the openai path is present and holds the empty text,
    yet extraction returns the literal, not the value at the path. *)
Lemma present_empty_text_skipped :
  at_path [Key "choices"; First; Key "message"; Key "content"]
          (completion (JStr ""))
  = JStr ""
  /\ first_present (path_values "openai" (completion (JStr "")))
                   (JStr "No response generated")
     = JStr ""
  /\ extractResponseText (JStr "openai") (completion (JStr ""))
     = JStr "No response generated".
Proof.
  repeat split.
Qed.

Lemma first_truthy_cases (vs : list JSValue) (fallback : JSValue) :
  first_truthy vs fallback = fallback
  \/ (In (first_truthy vs fallback) vs
      /\ truthy (first_truthy vs fallback) = true).
Proof.
  unfold first_truthy. destruct (find truthy vs) as [v|] eqn:Hfind.
  - right. apply find_some in Hfind. exact Hfind.
  - left. reflexivity.
Qed.

Lemma stringify_text (v : JSValue) :
  v <> JUndefined -> is_string (JSON_stringify v) = true.
Proof.
  intros Hv. destruct v; try reflexivity. contradiction Hv. reflexivity.
Qed.

Lemma nullish_undefined (v : JSValue) : nullish v = false -> v <> JUndefined.
Proof.
  intros H ->. discriminate H.
Qed.

(** Extraction yields a text, or a truthy value found in the body at one of
    the provider's paths. *)
Lemma extract_text_or_found (provider data : JSValue) :
  is_string (extractResponseText provider data) = true
  \/ exists p path,
       provider = JStr p /\ In path (paths p) /\ nullish data = false
       /\ extractResponseText provider data = at_path path data
       /\ truthy (at_path path data) = true.
Proof.
  assert (Hknown : forall p, In p providers ->
            is_string (extractResponseText (JStr p) data) = true
            \/ exists path,
                 In path (paths p) /\ nullish data = false
                 /\ extractResponseText (JStr p) data = at_path path data
                 /\ truthy (at_path path data) = true).
  { intros p Hin. destruct (nullish data) eqn:Hdata.
    - left. destruct (extract_nullish p data Hin Hdata) as [e He].
      unfold extractResponseText. rewrite He. reflexivity.
    - unfold extractResponseText. rewrite (extract_known p data Hin Hdata).
      destruct (first_truthy_cases (path_values p data)
                  (if p =? "custom" then JSON_stringify data
                   else JStr "No response generated")) as [-> | [Hfound Ht]].
      + left. destruct (p =? "custom"); [|reflexivity].
        apply stringify_text, nullish_undefined, Hdata.
      + right. unfold path_values in Hfound at 2.
        apply in_map_iff in Hfound. destruct Hfound as [path [Hpath Hin']].
        exists path. rewrite <- Hpath in Ht |- *. auto. }
  destruct provider as [| | | |s| |];
    try (left; rewrite extract_unknown; [reflexivity | discriminate]).
  destruct (providers_dec s) as [Hin|Hout].
  - destruct (Hknown s Hin) as [H | [path H]]; [left; exact H|].
    right. exists s, path. tauto.
  - left. rewrite extract_unknown; [reflexivity|].
    intros p Hin [= ->]. contradiction.
Qed.

(** C4, as the code has it. Extraction never fails outward: an exception
    raised while reading the body, which happens exactly when the body is
    [null] and the provider is one of the four, is turned into "Error parsing
    response". The result is a text, except that a truthy value of another
    type found at one of the provider's paths is returned as it is. *)
Theorem extraction_never_throws (provider data : JSValue) :
  (forall e,
     extractResponseText_try provider data = inl e ->
     extractResponseText provider data = JStr "Error parsing response")
  /\ ((exists e, extractResponseText_try provider data = inl e)
      <-> nullish data = true /\ exists p, In p providers /\ provider = JStr p)
  /\ (is_string (extractResponseText provider data) = true
      \/ exists p path,
           provider = JStr p /\ In path (paths p)
           /\ extractResponseText provider data = at_path path data
           /\ truthy (at_path path data) = true).
Proof.
  split; [|split].
  - intros e He. unfold extractResponseText. rewrite He. reflexivity.
  - split.
    + intros [e He].
      assert (Hp : exists p, In p providers /\ provider = JStr p).
      { destruct provider as [| | | |s| |]; try discriminate He.
        destruct (providers_dec s) as [Hin|Hout]; [eauto|].
        exfalso. assert (Hu := extract_unknown (JStr s) data).
        unfold extractResponseText in Hu. rewrite He in Hu.
        discriminate Hu. intros p Hin [= ->]. contradiction. }
      split; [|exact Hp]. destruct Hp as [p [Hin ->]].
      destruct (nullish data) eqn:Hdata; [reflexivity|].
      rewrite (extract_known p data Hin Hdata) in He. discriminate He.
    + intros [Hdata [p [Hin ->]]]. exact (extract_nullish p data Hin Hdata).
  - destruct (extract_text_or_found provider data)
      as [H | [p [path [Hp [Hin [_ [Heq Ht]]]]]]]; [left; exact H|].
    right. exists p, path. auto.
Qed.

Lemma extraction_never_throws_witness :
  extractResponseText (JStr "anthropic") JNull = JStr "Error parsing response".
Proof.
  apply (proj1 (extraction_never_throws (JStr "anthropic") JNull)
           (mkError "Cannot read properties of null (reading 'content')")
           eq_refl).
Defined.

(** C4 as stated fails: a number at the path is returned as a number. *)
Lemma number_returned_as_number :
  extractResponseText (JStr "custom") (JObj [("response", JNum "42")])
  = JNum "42"
  /\ is_string (extractResponseText (JStr "custom")
                  (JObj [("response", JNum "42")])) = false.
Proof.
  split; reflexivity.
Qed.

(** ** The handler *)

Lemma chat_caught (fetch : Fetch) (reqBody : JSValue) (e : Error) :
  snd (chat_try fetch reqBody) = inl e ->
  snd (chat fetch reqBody) = server_error e.
Proof.
  unfold chat. destruct (chat_try fetch reqBody) as [calls outcome]. simpl.
  intros ->. reflexivity.
Qed.

Lemma chat_calls (fetch : Fetch) (reqBody : JSValue) :
  fst (chat fetch reqBody) = fst (chat_try fetch reqBody).
Proof.
  unfold chat. destruct (chat_try fetch reqBody). reflexivity.
Qed.

Lemma adapt_respond_text (provider apiKey model : JSValue)
  (messages : list JSValue) (customEndpoint : JSValue) (r : Reply) :
  adapt provider apiKey model messages customEndpoint = inr (Respond r) ->
  code r = 400%Z /\ is_ChatResult (payload r) = true
  /\ exists v, payload r = failure v.
Proof.
  unfold adapt.
  destruct (strict_eq provider "gemini"); [split_binds; discriminate|].
  destruct (strict_eq provider "openai"); [split_binds; discriminate|].
  destruct (strict_eq provider "anthropic"); [split_binds; discriminate|].
  destruct (strict_eq provider "custom").
  - destruct (truthy customEndpoint); simpl.
    + split_binds; discriminate.
    + intros [= <-]. simpl. eauto.
  - split_binds; [discriminate|]. intros [= <-]. simpl. eauto.
Qed.

(** What the [try] block does, by the number of calls it made. *)
Lemma chat_try_cases (fetch : Fetch) (reqBody : JSValue) :
  (fst (chat_try fetch reqBody) = []
   /\ ((exists e, snd (chat_try fetch reqBody) = inl e)
       \/ exists r, snd (chat_try fetch reqBody) = inr r
                    /\ code r = 400%Z /\ is_ChatResult (payload r) = true
                    /\ exists v, payload r = failure v))
  \/ exists call,
       fst (chat_try fetch reqBody) = [call]
       /\ snd (chat_try fetch reqBody)
          = relay fetch (member reqBody "provider") call.
Proof.
  unfold chat_try.
  destruct (nullish reqBody); [left; simpl; eauto|]. cbv zeta.
  destruct (negb (truthy (member reqBody "provider"))
            || negb (truthy (member reqBody "apiKey"))
            || negb (truthy (member reqBody "messages")));
    [left; split; [reflexivity|]; right; eexists;
     repeat split; eexists; reflexivity|].
  destruct (negb (isArray (member reqBody "messages"))
            || (length (elements (member reqBody "messages")) =? 0)%nat);
    [left; split; [reflexivity|]; right; eexists;
     repeat split; eexists; reflexivity|].
  destruct (adapt _ _ _ _ _) as [e|[r|endpoint hdrs body]] eqn:Hadapt; simpl.
  - left. eauto.
  - left. split; [reflexivity|]. right. exists r.
    split; [reflexivity|]. exact (adapt_respond_text _ _ _ _ _ _ Hadapt).
  - right. eauto.
Qed.

Lemma chat_relays (fetch : Fetch) (reqBody : JSValue) (call : FetchCall) :
  fst (chat fetch reqBody) = [call] ->
  snd (chat_try fetch reqBody) = relay fetch (member reqBody "provider") call.
Proof.
  rewrite chat_calls. intros Hcall.
  destruct (chat_try_cases fetch reqBody) as [[Hnone _] | [c [Hone Hrelay]]].
  - rewrite Hnone in Hcall. discriminate Hcall.
  - rewrite Hone in Hcall. injection Hcall as ->. exact Hrelay.
Qed.

Lemma chat_returned (fetch : Fetch) (reqBody : JSValue) (r : Reply) :
  snd (chat_try fetch reqBody) = inr r -> snd (chat fetch reqBody) = r.
Proof.
  unfold chat. destruct (chat_try fetch reqBody) as [calls outcome]. simpl.
  intros ->. reflexivity.
Qed.

Lemma truthy_defined (v : JSValue) : truthy v = true -> nullish v = false.
Proof.
  destruct v; simpl; congruence.
Qed.

Lemma errorMessage_defined (data : JSValue) :
  nullish data = false -> errorMessage data = inr (upstream_message data).
Proof.
  intros Hdata. unfold errorMessage, upstream_message.
  rewrite (get_defined _ _ Hdata). simpl.
  destruct (truthy (member data "error")) eqn:Herr; [|reflexivity].
  destruct (is_string (member data "error")); [reflexivity|].
  unfold or_else. rewrite (get_defined _ _ (truthy_defined _ Herr)). simpl.
  destruct (truthy (member (member data "error") "message")); reflexivity.
Qed.

(** C5, as the code has it. When the upstream call answers with a status
    outside 200-299 and a JSON body other than [null], the handler replies
    [{success:false, error:errorMessage}] with the upstream status, where
    [errorMessage] is the body's [error] field itself when that is a
    non-empty text; else, when [error] is truthy, its [message] field when
    that is truthy and the whole [error] serialised otherwise; and "API
    request failed" when [error] is absent or falsy. *)
Theorem upstream_failure_relayed (fetch : Fetch) (reqBody : JSValue)
  (call : FetchCall) (resp : ApiResponse) (data : JSValue) :
  fst (chat fetch reqBody) = [call] ->
  fetch call = inr resp ->
  ok resp = false ->
  json resp = inr data ->
  nullish data = false ->
  exists msg,
    snd (chat fetch reqBody) = mkReply (status resp) (failure msg)
    /\ (truthy (member data "error") = false ->
        msg = JStr "API request failed")
    /\ (truthy (member data "error") = true ->
        is_string (member data "error") = true ->
        msg = member data "error")
    /\ (truthy (member data "error") = true ->
        is_string (member data "error") = false ->
        truthy (member (member data "error") "message") = true ->
        msg = member (member data "error") "message")
    /\ (truthy (member data "error") = true ->
        is_string (member data "error") = false ->
        truthy (member (member data "error") "message") = false ->
        msg = JSON_stringify (member data "error")).
Proof.
  intros Hcall Hfetch Hok Hjson Hdata.
  exists (upstream_message data). split.
  - apply chat_returned. rewrite (chat_relays _ _ _ Hcall).
    unfold relay. rewrite Hfetch. simpl. rewrite Hjson. simpl.
    rewrite Hok. simpl. rewrite (errorMessage_defined _ Hdata). reflexivity.
  - unfold upstream_message. cbv zeta.
    repeat split; intros; repeat match goal with
                                 | H : _ = _ |- _ => rewrite H
                                 end; reflexivity.
Qed.

Lemma upstream_failure_relayed_witness :
  snd (chat (answering 401 (JObj [("error",
                                   JObj [("message", JStr "bad key")])]))
            (request "openai" [hello]))
  = mkReply 401 (failure (JStr "bad key")).
Proof.
  destruct (upstream_failure_relayed
              (answering 401 (JObj [("error",
                                     JObj [("message", JStr "bad key")])]))
              (request "openai" [hello])
              (mkCall (JStr "https://api.openai.com/v1/chat/completions")
                 "POST"
                 [("Content-Type", JStr "application/json");
                  ("Authorization", JStr "Bearer k")]
                 (JSON_stringify
                    (JObj [("model", JStr "gpt-4o-mini");
                           ("messages", JArr [chat_message "user" "hi"]);
                           ("temperature", JNum "0.7");
                           ("max_tokens", JNum "2000")])))
              (mkResponse 401
                 (ret (JObj [("error", JObj [("message", JStr "bad key")])])))
              (JObj [("error", JObj [("message", JStr "bad key")])])
              eq_refl eq_refl eq_refl eq_refl eq_refl)
    as [msg [Hreply [_ [_ [Hmsg _]]]]].
  rewrite Hreply, (Hmsg eq_refl eq_refl eq_refl). reflexivity.
Defined.

(** C5 as stated fails: an [error] field that is a text, the empty one, is
    not used; the generic message is. *)
Lemma empty_error_text_not_used :
  is_string (member (JObj [("error", JStr "")]) "error") = true
  /\ snd (chat (answering 401 (JObj [("error", JStr "")]))
               (request "openai" [hello]))
     = mkReply 401 (failure (JStr "API request failed"))
  /\ snd (chat (answering 401 (JObj [("error", JStr "")]))
               (request "openai" [hello]))
     <> mkReply 401 (failure (member (JObj [("error", JStr "")]) "error")).
Proof.
  repeat split. discriminate.
Qed.

Lemma text_failure (v : JSValue) :
  is_string v = true -> is_ChatResult (failure v) = true.
Proof.
  destruct v; try discriminate. reflexivity.
Qed.

Lemma text_success (v : JSValue) :
  is_string v = true -> is_ChatResult (success v) = true.
Proof.
  destruct v; try discriminate. reflexivity.
Qed.

Lemma upstream_message_cases (data : JSValue) :
  is_string (upstream_message data) = true
  \/ (truthy (upstream_message data) = true
      /\ is_string (upstream_message data) = false
      /\ upstream_message data = member (member data "error") "message").
Proof.
  unfold upstream_message. cbv zeta.
  destruct (truthy (member data "error")) eqn:Herr; [|left; reflexivity].
  destruct (is_string (member data "error")) eqn:Hstr; [left; exact Hstr|].
  destruct (truthy (member (member data "error") "message")) eqn:Hmsg.
  - destruct (is_string (member (member data "error") "message")) eqn:Hs;
      [left; reflexivity | right; auto].
  - left. apply stringify_text, nullish_undefined, truthy_defined, Herr.
Qed.

(** C6, as the code has it. Whatever the request and whatever the upstream
    does, the handler replies with [{success:true, response:v}] (status 200)
    or [{success:false, error:v}]. Every exception raised while handling,
    a failed transport and an undecodable upstream body included, is caught
    and becomes [{success:false, error:<its message, or "Internal server
    error" when it has none>}] with status 500. The value [v] is a text,
    except that a truthy value of another type which the upstream body holds
    at the extraction path, or as [error.message] of a failure, is passed on
    as it is. *)
Theorem chat_always_replies (fetch : Fetch) (reqBody : JSValue) :
  (exists v,
     (payload (snd (chat fetch reqBody)) = success v
      /\ code (snd (chat fetch reqBody)) = 200%Z)
     \/ payload (snd (chat fetch reqBody)) = failure v)
  /\ (forall e,
        snd (chat_try fetch reqBody) = inl e ->
        snd (chat fetch reqBody) = server_error e
        /\ is_ChatResult (payload (server_error e)) = true)
  /\ (forall call e,
        fst (chat fetch reqBody) = [call] ->
        fetch call = inl e ->
        snd (chat fetch reqBody) = server_error e)
  /\ (forall call resp e,
        fst (chat fetch reqBody) = [call] ->
        fetch call = inr resp ->
        json resp = inl e ->
        snd (chat fetch reqBody) = server_error e)
  /\ (is_ChatResult (payload (snd (chat fetch reqBody))) = true
      \/ exists call resp data v,
           fst (chat fetch reqBody) = [call]
           /\ fetch call = inr resp
           /\ json resp = inr data
           /\ nullish data = false
           /\ truthy v = true
           /\ is_string v = false
           /\ ((ok resp = false
                /\ snd (chat fetch reqBody)
                   = mkReply (status resp) (failure v)
                /\ v = member (member data "error") "message")
               \/ (ok resp = true
                   /\ snd (chat fetch reqBody) = mkReply 200 (success v)
                   /\ exists p path,
                        member reqBody "provider" = JStr p
                        /\ In path (paths p)
                        /\ v = at_path path data))).
Proof.
  assert (Hcaught : forall e,
            snd (chat_try fetch reqBody) = inl e ->
            snd (chat fetch reqBody) = server_error e
            /\ is_ChatResult (payload (server_error e)) = true).
  { intros e He. split; [exact (chat_caught _ _ _ He) | reflexivity]. }
  assert (Hmain :
    (exists v,
       (payload (snd (chat fetch reqBody)) = success v
        /\ code (snd (chat fetch reqBody)) = 200%Z)
       \/ payload (snd (chat fetch reqBody)) = failure v)
    /\ (is_ChatResult (payload (snd (chat fetch reqBody))) = true
        \/ exists call resp data v,
             fst (chat fetch reqBody) = [call]
             /\ fetch call = inr resp
             /\ json resp = inr data
             /\ nullish data = false
             /\ truthy v = true
             /\ is_string v = false
             /\ ((ok resp = false
                  /\ snd (chat fetch reqBody)
                     = mkReply (status resp) (failure v)
                  /\ v = member (member data "error") "message")
                 \/ (ok resp = true
                     /\ snd (chat fetch reqBody) = mkReply 200 (success v)
                     /\ exists p path,
                          member reqBody "provider" = JStr p
                          /\ In path (paths p)
                          /\ v = at_path path data)))).
  { assert (Hthrown : forall e,
              snd (chat_try fetch reqBody) = inl e ->
              (exists v,
                 (payload (snd (chat fetch reqBody)) = success v
                  /\ code (snd (chat fetch reqBody)) = 200%Z)
                 \/ payload (snd (chat fetch reqBody)) = failure v)
              /\ is_ChatResult (payload (snd (chat fetch reqBody))) = true).
    { intros e He. rewrite (chat_caught _ _ _ He). split.
      - eexists. right. reflexivity.
      - reflexivity. }
    destruct (chat_try_cases fetch reqBody)
      as [[_ [[e He] | [r [Hr [_ [Htext [v Hv]]]]]]] | [call [Hcall Hrelay]]].
    - destruct (Hthrown e He) as [Hshape Htext]. auto.
    - rewrite (chat_returned _ _ _ Hr). split; [|left; exact Htext].
      exists v. right. exact Hv.
    - rewrite <- chat_calls in Hcall. unfold relay in Hrelay.
      destruct (fetch call) as [e|resp] eqn:Hfetch; simpl in Hrelay;
        [destruct (Hthrown e Hrelay); auto|].
      destruct (json resp) as [e|data] eqn:Hjson; simpl in Hrelay;
        [destruct (Hthrown e Hrelay); auto|].
      destruct (ok resp) eqn:Hok; simpl in Hrelay.
      + rewrite (chat_returned _ _ _ Hrelay). simpl. split.
        * eexists. left. split; reflexivity.
        * destruct (extract_text_or_found (member reqBody "provider") data)
            as [Hs | [p [path [Hp [Hin [Hdata [Heq Ht]]]]]]];
            [left; apply text_success, Hs|].
          destruct (is_string (at_path path data)) eqn:Hs.
          -- left. apply text_success. rewrite Heq. exact Hs.
          -- right. exists call, resp, data, (at_path path data).
             repeat (split; [assumption || reflexivity|]).
             right. rewrite Heq. split; [exact Hok|].
             split; [reflexivity|]. exists p, path. auto.
      + destruct (nullish data) eqn:Hdata.
        * unfold errorMessage, get in Hrelay. rewrite Hdata in Hrelay.
          simpl in Hrelay. destruct (Hthrown _ Hrelay). auto.
        * rewrite (errorMessage_defined _ Hdata) in Hrelay. simpl in Hrelay.
          rewrite (chat_returned _ _ _ Hrelay). simpl. split.
          -- eexists. right. reflexivity.
          -- destruct (upstream_message_cases data) as [Hs | [Ht [Hs Hm]]];
               [left; apply text_failure, Hs|].
             right. exists call, resp, data, (upstream_message data).
             repeat (split; [assumption || reflexivity|]).
             left. auto. }
  destruct Hmain as [Hshape Hvalue].
  split; [exact Hshape|]. split; [exact Hcaught|].
  split; [|split; [|exact Hvalue]].
  - intros call e Hcall Hfetch. apply Hcaught.
    rewrite (chat_relays _ _ _ Hcall). unfold relay. rewrite Hfetch.
    reflexivity.
  - intros call resp e Hcall Hfetch Hjson. apply Hcaught.
    rewrite (chat_relays _ _ _ Hcall). unfold relay. rewrite Hfetch. simpl.
    rewrite Hjson. reflexivity.
Qed.

Lemma chat_always_replies_witness :
  snd (chat unreachable (request "gemini" [hello]))
  = mkReply 500
      (failure (JStr "request to upstream failed, reason: ECONNREFUSED"))
  /\ snd (chat (fun _ => ret (mkResponse 502 (throw (mkError ""))))
               (request "anthropic" [hello]))
     = mkReply 500 (failure (JStr "Internal server error")).
Proof.
  split.
  - apply (proj1 (proj2 (proj2 (chat_always_replies unreachable
                                  (request "gemini" [hello]))))
             (mkCall
                (JStr ("https://generativelanguage.googleapis.com/v1beta/"
                       ++ "models/gemini-2.0-flash-exp:generateContent?key=k"))
                "POST"
                [("Content-Type", JStr "application/json")]
                (JSON_stringify
                   (JObj [("contents",
                           JArr [gemini_content (chat_message "user" "hi")])])))
             (mkError "request to upstream failed, reason: ECONNREFUSED")
             eq_refl eq_refl).
  - apply (proj1 (proj2 (proj2 (proj2
             (chat_always_replies
                (fun _ => ret (mkResponse 502 (throw (mkError ""))))
                (request "anthropic" [hello])))))
             (mkCall
                (JStr "https://api.anthropic.com/v1/messages")
                "POST"
                [("Content-Type", JStr "application/json");
                 ("x-api-key", JStr "k");
                 ("anthropic-version", JStr "2023-06-01")]
                (JSON_stringify
                   (JObj [("model", JStr "claude-3-5-sonnet-20241022");
                          ("messages", JArr [chat_message "user" "hi"]);
                          ("max_tokens", JNum "2000")])))
             (mkResponse 502 (throw (mkError "")))
             (mkError "")
             eq_refl eq_refl eq_refl).
Defined.

(** C6 as stated fails: when the upstream answers 200 with a message content
    that is a list of parts, the reply carries that list, not a text. *)
Lemma content_parts_relayed_as_list :
  snd (chat (answering 200 (completion text_parts)) (request "openai" [hello]))
  = mkReply 200 (success text_parts)
  /\ is_ChatResult
       (payload (snd (chat (answering 200 (completion text_parts))
                           (request "openai" [hello]))))
     = false.
Proof.
  split; reflexivity.
Qed.

(** * Further properties of [server.js] *)

(** ** What is sent upstream *)

Lemma strict_eq_text (v : JSValue) (lit : string) :
  strict_eq v lit = true -> v = JStr lit.
Proof.
  destruct v; try discriminate. simpl.
  intros H. apply String.eqb_eq in H. now subst.
Qed.

(** A call was made only by a request that passed validation and that the
    [switch] turned into a request. *)
Lemma chat_sent (fetch : Fetch) (reqBody : JSValue) (call : FetchCall) :
  fst (chat fetch reqBody) = [call] ->
  truthy (member reqBody "provider") = true
  /\ truthy (member reqBody "apiKey") = true
  /\ (exists m ms, member reqBody "messages" = JArr (m :: ms))
  /\ exists endpoint hdrs payload,
       adapt (member reqBody "provider") (member reqBody "apiKey")
             (member reqBody "model") (elements (member reqBody "messages"))
             (member reqBody "customEndpoint")
       = inr (Request endpoint hdrs payload)
       /\ call = mkCall endpoint "POST" hdrs (JSON_stringify payload).
Proof.
  rewrite chat_calls. unfold chat_try.
  destruct (nullish reqBody); [discriminate|]. cbv zeta.
  destruct (truthy (member reqBody "provider")); [|discriminate].
  destruct (truthy (member reqBody "apiKey")); [|discriminate].
  destruct (truthy (member reqBody "messages")); [|discriminate].
  destruct (member reqBody "messages") as [| | | | |[|m ms]|];
    try discriminate.
  simpl.
  destruct (adapt _ _ _ _ _) as [e|[r|endpoint hdrs payload]];
    try discriminate.
  simpl. intros [= <-]. repeat split; eauto.
Qed.

(** X1. For provider openai the switch yields the fixed completions URL, the
    header [Authorization: Bearer {apiKey}] next to the content type, and the
    body [{model, messages, temperature: 0.7, max_tokens: 2000}] in that
    order, with the messages passed on untouched (a [null] among them
    included) and the model ["gpt-4o-mini"] when the request's [model] is
    falsy. *)
Theorem openai_adaptation (apiKey : JSValue) (key : string)
  (model : JSValue) (messages : list JSValue) (customEndpoint : JSValue) :
  ToString apiKey = inr key ->
  adapt (JStr "openai") apiKey model messages customEndpoint
  = inr (Request
           (JStr "https://api.openai.com/v1/chat/completions")
           [("Content-Type", JStr "application/json");
            ("Authorization", JStr ("Bearer " ++ key))]
           (JObj [("model",
                   if truthy model then model else JStr "gpt-4o-mini");
                  ("messages", JArr messages);
                  ("temperature", JNum "0.7");
                  ("max_tokens", JNum "2000")])).
Proof.
  intros Hkey. unfold adapt. simpl. rewrite Hkey. reflexivity.
Qed.

Lemma openai_adaptation_witness :
  adapt (JStr "openai") (JStr "sk-1") (JStr "")
        [JNull; chat_message "user" "hi"] (JStr "http://elsewhere")
  = inr (Request
           (JStr "https://api.openai.com/v1/chat/completions")
           [("Content-Type", JStr "application/json");
            ("Authorization", JStr "Bearer sk-1")]
           (JObj [("model", JStr "gpt-4o-mini");
                  ("messages", JArr [JNull; chat_message "user" "hi"]);
                  ("temperature", JNum "0.7");
                  ("max_tokens", JNum "2000")])).
Proof.
  apply (openai_adaptation (JStr "sk-1") "sk-1" (JStr "")
           [JNull; chat_message "user" "hi"] (JStr "http://elsewhere")
           eq_refl).
Defined.

(** ** Messages that cannot be read *)

Lemma mapM_throws {A B : Type} (f : A -> Completion B) (l : list A) :
  Exists (fun a => exists e, f a = inl e) l -> exists e, mapM f l = inl e.
Proof.
  induction 1 as [a l [e He] | a l _ [e IH]]; simpl.
  - rewrite He. simpl. eauto.
  - destruct (f a) as [e'|b]; simpl; [eauto|]. rewrite IH. simpl. eauto.
Qed.

Lemma filterM_throws {A : Type} (p : A -> Completion bool) (l : list A) :
  Exists (fun a => exists e, p a = inl e) l -> exists e, filterM p l = inl e.
Proof.
  induction 1 as [a l [e He] | a l _ [e IH]]; simpl.
  - rewrite He. simpl. eauto.
  - destruct (p a) as [e'|b]; simpl; [eauto|]. rewrite IH. simpl. eauto.
Qed.

Lemma get_throws (v : JSValue) (k : string) :
  nullish v = true -> exists e, get v k = inl e.
Proof.
  intros Hv. unfold get. rewrite Hv. eexists. reflexivity.
Qed.

Lemma readable_or_not (l : list JSValue) :
  Forall (fun m => nullish m = false) l
  \/ Exists (fun m => nullish m = true) l.
Proof.
  induction l as [|m l [IH | IH]].
  - left. constructor.
  - destruct (nullish m) eqn:Hm.
    + right. constructor. exact Hm.
    + left. constructor; assumption.
  - right. apply Exists_cons_tl. exact IH.
Qed.

Lemma format_unreadable (provider : string) (messages : list JSValue) :
  provider = "gemini" \/ provider = "anthropic" ->
  Exists (fun m => nullish m = true) messages ->
  exists e, formatMessagesForProvider provider messages = inl e.
Proof.
  intros Hp Hsome.
  destruct Hp as [-> | ->]; unfold formatMessagesForProvider; simpl.
  - match goal with
    | |- context [mapM ?f messages] =>
        assert (Hf : Exists (fun m => exists e, f m = inl e) messages);
        [|destruct (mapM_throws f messages Hf) as [e He]]
    end.
    + eapply Exists_impl; [|exact Hsome]. intros m Hm. cbv beta.
      destruct (get_throws m "role" Hm) as [e He]. rewrite He.
      simpl. eauto.
    + rewrite He. simpl. eauto.
  - destruct (findM _ messages) as [e|found]; simpl; [eauto|].
    match goal with
    | |- context [filterM ?p messages] =>
        assert (Hp : Exists (fun m => exists e, p m = inl e) messages);
        [|destruct (filterM_throws p messages Hp) as [e He]]
    end.
    + eapply Exists_impl; [|exact Hsome]. intros m Hm. cbv beta.
      destruct (get_throws m "role" Hm) as [e He]. rewrite He.
      simpl. eauto.
    + rewrite He. simpl. eauto.
Qed.

(** X2. [formatMessagesForProvider] throws exactly when the provider is
    gemini or anthropic and some message is [null] or [undefined]; for every
    other provider name it never reads the messages and cannot fail. *)
Theorem format_throws_exactly (provider : string) (messages : list JSValue) :
  (exists e, formatMessagesForProvider provider messages = inl e)
  <-> (provider = "gemini" \/ provider = "anthropic")
      /\ Exists (fun m => nullish m = true) messages.
Proof.
  split.
  - intros [e He].
    destruct (String.eqb_spec provider "gemini") as [->|Hg].
    { split; [auto|]. destruct (readable_or_not messages) as [Hall|H];
        [|exact H].
      rewrite (format_gemini _ Hall) in He. discriminate He. }
    destruct (String.eqb_spec provider "anthropic") as [->|Ha].
    { split; [auto|]. destruct (readable_or_not messages) as [Hall|H];
        [|exact H].
      rewrite (format_anthropic _ Hall) in He. discriminate He. }
    exfalso. unfold formatMessagesForProvider in He.
    destruct (String.eqb_spec provider "gemini"); [contradiction|].
    destruct (provider =? "openai"); [discriminate He|].
    destruct (String.eqb_spec provider "anthropic"); [contradiction|].
    discriminate He.
  - intros [Hp Hsome]. exact (format_unreadable _ _ Hp Hsome).
Qed.

Lemma format_throws_exactly_witness :
  exists e,
    formatMessagesForProvider "anthropic"
      [chat_message "system" "S"; JNull] = inl e.
Proof.
  apply (proj2 (format_throws_exactly "anthropic"
                  [chat_message "system" "S"; JNull])).
  split; [right; reflexivity|].
  apply Exists_cons_tl. constructor. reflexivity.
Defined.

Lemma adapt_unreadable (p : string) (apiKey model : JSValue)
  (messages : list JSValue) (customEndpoint : JSValue) :
  p = "gemini" \/ p = "anthropic" ->
  Exists (fun m => nullish m = true) messages ->
  exists e, adapt (JStr p) apiKey model messages customEndpoint = inl e.
Proof.
  intros Hp Hsome.
  destruct (format_unreadable p messages Hp Hsome) as [e He].
  destruct Hp as [-> | ->]; unfold adapt; simpl strict_eq; cbv iota.
  - destruct (ToString (or_default model _)); simpl; [eauto|].
    destruct (ToString apiKey); simpl; [eauto|].
    rewrite He. simpl. eauto.
  - rewrite He. simpl. eauto.
Qed.

(** X3. A request for gemini or anthropic that passes validation but whose
    [messages] array holds a [null] is answered 500 by the [catch] block, and
    nothing is sent upstream. *)
Theorem null_message_is_server_error (fetch : Fetch) (reqBody : JSValue)
  (p : string) (messages : list JSValue) :
  nullish reqBody = false ->
  member reqBody "provider" = JStr p ->
  p = "gemini" \/ p = "anthropic" ->
  truthy (member reqBody "apiKey") = true ->
  member reqBody "messages" = JArr messages ->
  Exists (fun m => nullish m = true) messages ->
  exists e, chat fetch reqBody = ([], server_error e).
Proof.
  intros Hbody Hp Hknown Hkey Hmsgs Hsome.
  destruct (adapt_unreadable p (member reqBody "apiKey")
              (member reqBody "model") messages
              (member reqBody "customEndpoint") Hknown Hsome) as [e He].
  exists e. unfold chat. rewrite chat_passes_presence; trivial.
  - rewrite Hp, Hmsgs. cbv zeta. simpl isArray. simpl elements.
    destruct messages as [|m ms]; [inversion Hsome|].
    simpl. rewrite He. reflexivity.
  - rewrite Hp. destruct Hknown as [-> | ->]; reflexivity.
  - rewrite Hmsgs. reflexivity.
Qed.

Lemma null_message_is_server_error_witness :
  exists e,
    chat (answering 200 (JObj []))
         (request "gemini" [("messages", JArr [chat_message "user" "hi";
                                               JNull])])
    = ([], server_error e).
Proof.
  apply (null_message_is_server_error (answering 200 (JObj []))
           (request "gemini" [("messages", JArr [chat_message "user" "hi";
                                                 JNull])])
           "gemini" [chat_message "user" "hi"; JNull]
           eq_refl eq_refl (or_introl eq_refl) eq_refl eq_refl).
  apply Exists_cons_tl. constructor. reflexivity.
Defined.

(** The request the [switch] builds, provider by provider. *)
Lemma adapt_request_cases (provider apiKey model : JSValue)
  (messages : list JSValue) (customEndpoint endpoint : JSValue)
  (hdrs : list (string * JSValue)) (payload : JSValue) :
  adapt provider apiKey model messages customEndpoint
  = inr (Request endpoint hdrs payload) ->
  (provider = JStr "gemini"
   /\ hdrs = [("Content-Type", JStr "application/json")]
   /\ exists name key contents,
        ToString apiKey = inr key
        /\ endpoint = JStr (API_ENDPOINTS_gemini name ++ "?key=" ++ key)
        /\ payload = JObj [("contents", JArr contents)])
  \/ (provider = JStr "openai"
      /\ endpoint = JStr API_ENDPOINTS_openai
      /\ exists key fields,
           ToString apiKey = inr key
           /\ hdrs = [("Content-Type", JStr "application/json");
                      ("Authorization", JStr ("Bearer " ++ key))]
           /\ payload = JObj fields)
  \/ (provider = JStr "anthropic"
      /\ endpoint = JStr API_ENDPOINTS_anthropic
      /\ hdrs = [("Content-Type", JStr "application/json");
                 ("x-api-key", apiKey);
                 ("anthropic-version", JStr "2023-06-01")]
      /\ exists fields, payload = JObj fields)
  \/ (provider = JStr "custom"
      /\ truthy customEndpoint = true
      /\ endpoint = customEndpoint
      /\ exists key,
           ToString apiKey = inr key
           /\ hdrs = [("Content-Type", JStr "application/json");
                      ("Authorization", JStr ("Bearer " ++ key))]
           /\ payload = JObj [("messages", JArr messages)]).
Proof.
  unfold adapt.
  destruct (strict_eq provider "gemini") eqn:Hg.
  { apply strict_eq_text in Hg.
    destruct (ToString (or_default model _)) as [e|name]; [discriminate|].
    destruct (ToString apiKey) as [e|key]; [discriminate|].
    unfold formatMessagesForProvider. simpl.
    destruct (mapM _ messages) as [e|contents]; [discriminate|].
    simpl. intros [= <- <- <-]. left. eauto 10. }
  destruct (strict_eq provider "openai") eqn:Ho.
  { apply strict_eq_text in Ho.
    destruct (ToString apiKey) as [e|key]; [discriminate|].
    simpl. intros [= <- <- <-]. right. left. eauto 10. }
  destruct (strict_eq provider "anthropic") eqn:Ha.
  { apply strict_eq_text in Ha.
    destruct (formatMessagesForProvider "anthropic" messages) as [e|fields];
      [discriminate|].
    simpl. intros [= <- <- <-]. right. right. left. eauto 10. }
  destruct (strict_eq provider "custom") eqn:Hc.
  { apply strict_eq_text in Hc.
    destruct (truthy customEndpoint) eqn:Hce; simpl; [|discriminate].
    destruct (ToString apiKey) as [e|key]; [discriminate|].
    simpl. intros [= <- <- <-]. right. right. right. eauto 10. }
  destruct (ToString provider); discriminate.
Qed.

(** X4. The handler calls [fetch] at most once per request; the call, when
    there is one, uses method POST, declares the content type
    [application/json] and carries a text body (the serialised request). *)
Theorem outbound_call_shape (fetch : Fetch) (reqBody : JSValue) :
  fst (chat fetch reqBody) = []
  \/ exists call,
       fst (chat fetch reqBody) = [call]
       /\ method call = "POST"
       /\ own "Content-Type" (headers call) = JStr "application/json"
       /\ is_string (body call) = true.
Proof.
  rewrite chat_calls.
  destruct (chat_try_cases fetch reqBody) as [[Hnone _] | [call [Hone _]]];
    [left; exact Hnone|].
  right. exists call. split; [exact Hone|].
  rewrite <- chat_calls in Hone.
  destruct (chat_sent _ _ _ Hone)
    as [_ [_ [_ [endpoint [hdrs [payload [Hadapt ->]]]]]]].
  simpl. split; [reflexivity|].
  destruct (adapt_request_cases _ _ _ _ _ _ _ _ Hadapt)
    as [[_ [-> [name [key [contents [_ [_ ->]]]]]]]
       | [[_ [_ [key [fields [_ [-> ->]]]]]]
         | [[_ [_ [-> [fields ->]]]]
           | [_ [_ [_ [key [_ [-> ->]]]]]]]]];
    split; reflexivity.
Qed.

(** X5. A call goes to one of four places only, decided by the provider text:
    the Gemini URL with the key in its query string and no credential header;
    the OpenAI URL with the key in [Authorization: Bearer]; the Anthropic URL
    with the key in [x-api-key] beside the fixed [anthropic-version]; or, for
    custom, the request's own truthy [customEndpoint] with the key in
    [Authorization: Bearer]. No other provider value is ever contacted. *)
Theorem outbound_destination (fetch : Fetch) (reqBody : JSValue)
  (call : FetchCall) :
  fst (chat fetch reqBody) = [call] ->
  (member reqBody "provider" = JStr "gemini"
   /\ headers call = [("Content-Type", JStr "application/json")]
   /\ exists name key,
        ToString (member reqBody "apiKey") = inr key
        /\ url call
           = JStr ("https://generativelanguage.googleapis.com/v1beta/models/"
                   ++ name ++ ":generateContent?key=" ++ key))
  \/ (member reqBody "provider" = JStr "openai"
      /\ url call = JStr "https://api.openai.com/v1/chat/completions"
      /\ exists key,
           ToString (member reqBody "apiKey") = inr key
           /\ headers call = [("Content-Type", JStr "application/json");
                              ("Authorization", JStr ("Bearer " ++ key))])
  \/ (member reqBody "provider" = JStr "anthropic"
      /\ url call = JStr "https://api.anthropic.com/v1/messages"
      /\ headers call = [("Content-Type", JStr "application/json");
                         ("x-api-key", member reqBody "apiKey");
                         ("anthropic-version", JStr "2023-06-01")])
  \/ (member reqBody "provider" = JStr "custom"
      /\ truthy (member reqBody "customEndpoint") = true
      /\ url call = member reqBody "customEndpoint"
      /\ exists key,
           ToString (member reqBody "apiKey") = inr key
           /\ headers call = [("Content-Type", JStr "application/json");
                              ("Authorization", JStr ("Bearer " ++ key))]).
Proof.
  intros Hcall.
  destruct (chat_sent _ _ _ Hcall)
    as [_ [_ [_ [endpoint [hdrs [payload [Hadapt ->]]]]]]].
  simpl.
  destruct (adapt_request_cases _ _ _ _ _ _ _ _ Hadapt)
    as [[Hp [-> [name [key [contents [Hkey [-> _]]]]]]]
       | [[Hp [-> [key [fields [Hkey [-> _]]]]]]
         | [[Hp [-> [-> _]]]
           | [Hp [Hce [-> [key [Hkey [-> _]]]]]]]]].
  - left. split; [exact Hp|]. split; [reflexivity|]. exists name, key.
    split; [exact Hkey|]. unfold API_ENDPOINTS_gemini.
    rewrite !append_assoc. reflexivity.
  - right. left. eauto.
  - right. right. left. auto.
  - right. right. right. eauto 6.
Qed.

Lemma outbound_destination_witness :
  member (request "custom" [hello; ("customEndpoint", JStr "http://h/v1")])
         "provider" = JStr "custom"
  /\ truthy (member (request "custom"
                       [hello; ("customEndpoint", JStr "http://h/v1")])
                    "customEndpoint") = true
  /\ url (mkCall (JStr "http://h/v1") "POST"
            [("Content-Type", JStr "application/json");
             ("Authorization", JStr "Bearer k")]
            (JSON_stringify
               (JObj [("messages", JArr [chat_message "user" "hi"])])))
     = JStr "http://h/v1"
  /\ exists key,
       ToString (JStr "k") = inr key
       /\ [("Content-Type", JStr "application/json");
           ("Authorization", JStr "Bearer k")]
          = [("Content-Type", JStr "application/json");
             ("Authorization", JStr ("Bearer " ++ key))].
Proof.
  destruct (outbound_destination unreachable
              (request "custom" [hello; ("customEndpoint", JStr "http://h/v1")])
              (mkCall (JStr "http://h/v1") "POST"
                 [("Content-Type", JStr "application/json");
                  ("Authorization", JStr "Bearer k")]
                 (JSON_stringify
                    (JObj [("messages", JArr [chat_message "user" "hi"])])))
              eq_refl)
    as [[H _] | [[H _] | [[H _] | H]]]; try discriminate H.
  exact H.
Defined.

(** ** What is replied *)

(** Every way the handler can end. *)
Lemma chat_outcomes (fetch : Fetch) (reqBody : JSValue) :
  (exists e, snd (chat fetch reqBody) = server_error e)
  \/ (exists v,
        fst (chat fetch reqBody) = []
        /\ snd (chat fetch reqBody) = mkReply 400 (failure v))
  \/ (exists call resp data v,
        fst (chat fetch reqBody) = [call]
        /\ fetch call = inr resp
        /\ json resp = inr data
        /\ ok resp = false
        /\ errorMessage data = inr v
        /\ snd (chat fetch reqBody) = mkReply (status resp) (failure v))
  \/ (exists call resp data,
        fst (chat fetch reqBody) = [call]
        /\ fetch call = inr resp
        /\ json resp = inr data
        /\ ok resp = true
        /\ snd (chat fetch reqBody)
           = mkReply 200
               (success (extractResponseText (member reqBody "provider")
                                             data))).
Proof.
  destruct (chat_try_cases fetch reqBody)
    as [[Hnone [[e He] | [r [Hr [Hcode [_ [v Hv]]]]]]] | [call [Hcall Hrelay]]].
  - left. exists e. exact (chat_caught _ _ _ He).
  - right. left. exists v. rewrite chat_calls. split; [exact Hnone|].
    rewrite (chat_returned _ _ _ Hr). destruct r as [c pl].
    simpl in Hcode, Hv. subst. reflexivity.
  - rewrite <- chat_calls in Hcall. unfold relay in Hrelay.
    destruct (fetch call) as [e|resp] eqn:Hfetch; simpl in Hrelay;
      [left; exists e; exact (chat_caught _ _ _ Hrelay)|].
    destruct (json resp) as [e|data] eqn:Hjson; simpl in Hrelay;
      [left; exists e; exact (chat_caught _ _ _ Hrelay)|].
    destruct (ok resp) eqn:Hok; simpl in Hrelay.
    + right. right. right. exists call, resp, data.
      rewrite (chat_returned _ _ _ Hrelay). auto.
    + destruct (errorMessage data) as [e|v] eqn:Hmsg; simpl in Hrelay;
        [left; exists e; exact (chat_caught _ _ _ Hrelay)|].
      right. right. left. exists call, resp, data, v.
      rewrite (chat_returned _ _ _ Hrelay). auto 6.
Qed.

Lemma sent_to_known_provider (fetch : Fetch) (reqBody : JSValue)
  (call : FetchCall) :
  fst (chat fetch reqBody) = [call] ->
  exists p, In p providers /\ member reqBody "provider" = JStr p.
Proof.
  intros Hcall.
  destruct (chat_sent _ _ _ Hcall)
    as [_ [_ [_ [endpoint [hdrs [payload [Hadapt _]]]]]]].
  destruct (adapt_request_cases _ _ _ _ _ _ _ _ Hadapt)
    as [[Hp _] | [[Hp _] | [[Hp _] | [Hp _]]]];
    rewrite Hp; eexists; (split; [|reflexivity]); simpl; auto 6.
Qed.

(** X6. When the upstream answers with a status in 200-299 and a body that
    decodes, the reply is [{success:true, response}] with status 200 (not the
    upstream's own 2xx status), [response] being what [extractResponseText]
    finds. A body that is [null] is still reported as a success, with the
    response "Error parsing response". *)
Theorem upstream_success_relayed (fetch : Fetch) (reqBody : JSValue)
  (call : FetchCall) (resp : ApiResponse) (data : JSValue) :
  fst (chat fetch reqBody) = [call] ->
  fetch call = inr resp ->
  ok resp = true ->
  json resp = inr data ->
  snd (chat fetch reqBody)
  = mkReply 200
      (success (extractResponseText (member reqBody "provider") data))
  /\ (nullish data = true ->
      snd (chat fetch reqBody)
      = mkReply 200 (success (JStr "Error parsing response"))).
Proof.
  intros Hcall Hfetch Hok Hjson.
  assert (Hreply : snd (chat fetch reqBody)
                   = mkReply 200
                       (success (extractResponseText
                                   (member reqBody "provider") data))).
  { apply chat_returned. rewrite (chat_relays _ _ _ Hcall).
    unfold relay. rewrite Hfetch. simpl. rewrite Hjson. simpl.
    rewrite Hok. reflexivity. }
  split; [exact Hreply|].
  intros Hdata. rewrite Hreply.
  destruct (sent_to_known_provider _ _ _ Hcall) as [p [Hin ->]].
  destruct (extract_nullish p data Hin Hdata) as [e He].
  unfold extractResponseText. rewrite He. reflexivity.
Qed.

Lemma upstream_success_relayed_witness :
  snd (chat (answering 201 JNull) (request "anthropic" [hello]))
  = mkReply 200 (success (JStr "Error parsing response")).
Proof.
  apply (proj2 (upstream_success_relayed (answering 201 JNull)
                  (request "anthropic" [hello])
                  (mkCall
                     (JStr "https://api.anthropic.com/v1/messages")
                     "POST"
                     [("Content-Type", JStr "application/json");
                      ("x-api-key", JStr "k");
                      ("anthropic-version", JStr "2023-06-01")]
                     (JSON_stringify
                        (JObj [("model", JStr "claude-3-5-sonnet-20241022");
                               ("messages", JArr [chat_message "user" "hi"]);
                               ("max_tokens", JNum "2000")])))
                  (mkResponse 201 (ret JNull)) JNull
                  eq_refl eq_refl eq_refl eq_refl) eq_refl).
Defined.

(** X7. A success is never made up: the handler replies
    [{success:true, response}] only after exactly one call that the upstream
    answered with a 2xx status and a decodable body, and [response] is what
    was extracted from that body. *)
Theorem success_needs_upstream (fetch : Fetch) (reqBody v : JSValue) :
  payload (snd (chat fetch reqBody)) = success v ->
  exists call resp data,
    fst (chat fetch reqBody) = [call]
    /\ fetch call = inr resp
    /\ ok resp = true
    /\ json resp = inr data
    /\ v = extractResponseText (member reqBody "provider") data.
Proof.
  intros Hpayload.
  destruct (chat_outcomes fetch reqBody)
    as [[e H] | [[w [_ H]] | [[call [resp [data [w [_ [_ [_ [_ [_ H]]]]]]]]]
                             | [call [resp [data [Hc [Hf [Hj [Hok H]]]]]]]]]];
    rewrite H in Hpayload; simpl in Hpayload; try discriminate Hpayload.
  injection Hpayload as <-. exists call, resp, data. auto.
Qed.

Lemma success_needs_upstream_witness :
  exists call resp data,
    fst (chat (answering 200 (completion (JStr "hi")))
              (request "openai" [hello])) = [call]
    /\ answering 200 (completion (JStr "hi")) call = inr resp
    /\ ok resp = true
    /\ json resp = inr data
    /\ JStr "hi" = extractResponseText
                     (member (request "openai" [hello]) "provider") data.
Proof.
  apply (success_needs_upstream (answering 200 (completion (JStr "hi")))
           (request "openai" [hello]) (JStr "hi") eq_refl).
Defined.

(** X8. The reply has status 200 exactly when it is a success: every failure
    reply, the relayed upstream failures included, has another status. *)
Theorem status_200_iff_success (fetch : Fetch) (reqBody : JSValue) :
  code (snd (chat fetch reqBody)) = 200%Z
  <-> exists v, payload (snd (chat fetch reqBody)) = success v.
Proof.
  destruct (chat_outcomes fetch reqBody)
    as [[e H] | [[w [_ H]] | [[call [resp [data [w [_ [_ [_ [Hok [_ H]]]]]]]]]
                             | [call [resp [data [_ [_ [_ [_ H]]]]]]]]]];
    rewrite H; simpl; split;
    try (intros [v Hv]; discriminate Hv);
    try (intros Hcode; discriminate Hcode).
  - intros Hcode. unfold ok in Hok. rewrite Hcode in Hok. discriminate Hok.
  - intros _. eexists. reflexivity.
  - intros _. reflexivity.
Qed.

(** X9. When the upstream answers with a status outside 200-299 and the body
    [null], reading its [error] field throws: the reply is the 500 of the
    [catch] block, whatever the upstream status was. *)
Theorem null_failure_body_is_server_error (fetch : Fetch)
  (reqBody : JSValue) (call : FetchCall) (resp : ApiResponse)
  (data : JSValue) :
  fst (chat fetch reqBody) = [call] ->
  fetch call = inr resp ->
  ok resp = false ->
  json resp = inr data ->
  nullish data = true ->
  exists e, snd (chat fetch reqBody) = server_error e.
Proof.
  intros Hcall Hfetch Hok Hjson Hdata.
  destruct (get_throws data "error" Hdata) as [e He].
  exists e. apply chat_caught. rewrite (chat_relays _ _ _ Hcall).
  unfold relay. rewrite Hfetch. simpl. rewrite Hjson. simpl.
  rewrite Hok. simpl. unfold errorMessage. rewrite He. reflexivity.
Qed.

Lemma null_failure_body_is_server_error_witness :
  exists e,
    snd (chat (answering 404 JNull) (request "openai" [hello]))
    = server_error e.
Proof.
  apply (null_failure_body_is_server_error (answering 404 JNull)
           (request "openai" [hello])
           (mkCall (JStr "https://api.openai.com/v1/chat/completions")
              "POST"
              [("Content-Type", JStr "application/json");
               ("Authorization", JStr "Bearer k")]
              (JSON_stringify
                 (JObj [("model", JStr "gpt-4o-mini");
                        ("messages", JArr [chat_message "user" "hi"]);
                        ("temperature", JNum "0.7");
                        ("max_tokens", JNum "2000")])))
           (mkResponse 404 (ret JNull)) JNull
           eq_refl eq_refl eq_refl eq_refl eq_refl).
Defined.



(** ** Values that are never empty *)

Lemma stringify_truthy (v : JSValue) :
  v <> JUndefined -> v <> JNum "" -> truthy (JSON_stringify v) = true.
Proof.
  intros Hdef Hnum. destruct v as [| |b|d|s|vs|ps]; try reflexivity.
  - contradiction Hdef. reflexivity.
  - destruct b; reflexivity.
  - unfold JSON_stringify. simpl. destruct (non_finite d); [reflexivity|].
    simpl. destruct (String.eqb_spec d ""); [subst; contradiction|].
    reflexivity.
Qed.

Lemma extract_truthy (provider data : JSValue) :
  data <> JNum "" -> truthy (extractResponseText provider data) = true.
Proof.
  intros Hnum.
  assert (Hknown : forall p, In p providers ->
            truthy (extractResponseText (JStr p) data) = true).
  { intros p Hin. destruct (nullish data) eqn:Hdata.
    - destruct (extract_nullish p data Hin Hdata) as [e He].
      unfold extractResponseText. rewrite He. reflexivity.
    - unfold extractResponseText. rewrite (extract_known p data Hin Hdata).
      destruct (first_truthy_cases (path_values p data)
                  (if p =? "custom" then JSON_stringify data
                   else JStr "No response generated")) as [-> | [_ Ht]];
        [|exact Ht].
      destruct (p =? "custom"); [|reflexivity].
      apply stringify_truthy; [|exact Hnum].
      apply nullish_undefined, Hdata. }
  destruct provider as [| | | |s| |];
    try (rewrite extract_unknown; [reflexivity | discriminate]).
  destruct (providers_dec s) as [Hin|Hout]; [exact (Hknown s Hin)|].
  rewrite extract_unknown; [reflexivity|].
  intros p Hin [= ->]. contradiction.
Qed.

Lemma errorMessage_truthy (data v : JSValue) :
  member data "error" <> JNum "" ->
  errorMessage data = inr v -> truthy v = true.
Proof.
  intros Hnum Hmsg. destruct (nullish data) eqn:Hdata.
  - destruct (get_throws data "error" Hdata) as [e He].
    unfold errorMessage in Hmsg. rewrite He in Hmsg. discriminate Hmsg.
  - rewrite (errorMessage_defined _ Hdata) in Hmsg. injection Hmsg as <-.
    unfold upstream_message. cbv zeta.
    destruct (truthy (member data "error")) eqn:Herr; [|reflexivity].
    destruct (is_string (member data "error")); [exact Herr|].
    destruct (truthy (member (member data "error") "message")) eqn:Hm;
      [exact Hm|].
    apply stringify_truthy; [|exact Hnum].
    apply nullish_undefined, truthy_defined, Herr.
Qed.

(** X11. What [extractResponseText] returns is never empty: for every
    provider and every body it is a truthy value, so never [undefined],
    [null], [false], zero or the empty text. Likewise the [errorMessage]
    derived from a failed upstream answer is truthy whenever it is derived
    at all. (A number is held by its decimal text, which is never empty; the
    hypotheses say so of the value that gets serialised.) *)
Theorem extracted_values_truthy (provider data : JSValue) :
  (data <> JNum "" -> truthy (extractResponseText provider data) = true)
  /\ (forall v,
        member data "error" <> JNum "" ->
        errorMessage data = inr v ->
        truthy v = true).
Proof.
  split.
  - apply extract_truthy.
  - intros v. apply errorMessage_truthy.
Qed.

Lemma extracted_values_truthy_witness :
  truthy (extractResponseText (JStr "custom") (JNum "0")) = true
  /\ truthy (JStr "true") = true.
Proof.
  split.
  - apply (proj1 (extracted_values_truthy (JStr "custom") (JNum "0"))).
    discriminate.
  - apply (proj2 (extracted_values_truthy (JStr "custom")
                    (JObj [("error", JBool true)]))
             (JStr "true")).
    + discriminate.
    + reflexivity.
Defined.




(** ** System messages for Anthropic *)

Lemma filter_keeps_all (q : JSValue -> bool) (l : list JSValue) :
  Forall (fun m => q m = true) l -> filter q l = l.
Proof.
  induction 1 as [|m l Hm _ IH]; simpl; [reflexivity|].
  rewrite Hm, IH. reflexivity.
Qed.

Lemma find_after_prefix (q : JSValue -> bool) (pre post : list JSValue)
  (s : JSValue) :
  Forall (fun m => q m = false) pre -> q s = true ->
  find q (pre ++ s :: post) = Some s.
Proof.
  intros Hpre Hs. induction Hpre as [|m l Hm _ IH]; simpl.
  - rewrite Hs. reflexivity.
  - rewrite Hm. exact IH.
Qed.

(** X13. Anthropic keeps one system message only. When no message has role
    [system] the formatted fields are [{messages, max_tokens: 2000}] with the
    messages unchanged and no [system] key. Otherwise [system] is the content
    of the first system message, and every system message, the later ones
    with their content, is removed from [messages]. *)
Theorem anthropic_system_messages (pre post : list JSValue) (s : JSValue) :
  Forall (fun m => nullish m = false) (pre ++ s :: post) ->
  Forall (fun m => is_system m = false) pre ->
  (formatMessagesForProvider "anthropic" pre
   = inr (JObj [("messages", JArr pre); ("max_tokens", JNum "2000")]))
  /\ (is_system s = true ->
      formatMessagesForProvider "anthropic" (pre ++ s :: post)
      = inr (JObj [("messages",
                    JArr (pre ++ filter (fun m => negb (is_system m)) post));
                   ("max_tokens", JNum "2000");
                   ("system", member s "content")])).
Proof.
  intros Hall Hpre.
  assert (Hkeep : filter (fun m => negb (is_system m)) pre = pre).
  { apply filter_keeps_all. eapply Forall_impl; [|exact Hpre].
    intros m Hm. cbv beta. rewrite Hm. reflexivity. }
  split.
  - apply Forall_app in Hall. destruct Hall as [Hall _].
    rewrite (format_anthropic _ Hall), Hkeep.
    assert (Hnone : find is_system pre = None).
    { clear - Hpre. induction Hpre as [|m l Hm _ IH]; simpl;
        [reflexivity|]. rewrite Hm. exact IH. }
    rewrite Hnone. reflexivity.
  - intros Hs. rewrite (format_anthropic _ Hall).
    rewrite (find_after_prefix _ _ _ _ Hpre Hs).
    rewrite filter_app, Hkeep. simpl. rewrite Hs. reflexivity.
Qed.

Lemma anthropic_system_messages_witness :
  formatMessagesForProvider "anthropic"
    [chat_message "user" "U"; chat_message "system" "S";
     chat_message "system" "T"; chat_message "assistant" "A"]
  = inr (JObj [("messages", JArr [chat_message "user" "U";
                                  chat_message "assistant" "A"]);
               ("max_tokens", JNum "2000");
               ("system", JStr "S")]).
Proof.
  apply (proj2 (anthropic_system_messages
                  [chat_message "user" "U"]
                  [chat_message "system" "T"; chat_message "assistant" "A"]
                  (chat_message "system" "S")
                  ltac:(repeat constructor) ltac:(repeat constructor))
           eq_refl).
Defined.

(** ** Providers that are not texts *)

(** X14. The [switch] compares with [===], so a provider that is not a text
    matches no case, even when it prints like one: a validated request with
    such a provider is answered 400 "Unsupported provider: " followed by its
    string conversion, or 500 when that conversion throws; nothing is sent
    upstream in either case. *)
Theorem non_text_provider_unsupported (fetch : Fetch) (reqBody : JSValue)
  (m : JSValue) (ms : list JSValue) :
  nullish reqBody = false ->
  truthy (member reqBody "provider") = true ->
  is_string (member reqBody "provider") = false ->
  truthy (member reqBody "apiKey") = true ->
  member reqBody "messages" = JArr (m :: ms) ->
  (forall name,
     ToString (member reqBody "provider") = inr name ->
     chat fetch reqBody
     = ([], mkReply 400 (failure (JStr ("Unsupported provider: " ++ name)))))
  /\ (forall e,
        ToString (member reqBody "provider") = inl e ->
        chat fetch reqBody = ([], server_error e)).
Proof.
  intros Hbody Hp Htext Hkey Hmsgs.
  assert (Hadapt : adapt (member reqBody "provider") (member reqBody "apiKey")
                         (member reqBody "model") (m :: ms)
                         (member reqBody "customEndpoint")
                   = (name <- ToString (member reqBody "provider") ;;
                      ret (Respond (mkReply 400
                             (failure (JStr ("Unsupported provider: "
                                             ++ name))))))).
  { unfold adapt.
    destruct (member reqBody "provider"); try discriminate Htext;
      reflexivity. }
  assert (Htry : chat_try fetch reqBody
                 = match (name <- ToString (member reqBody "provider") ;;
                          ret (Respond (mkReply 400
                                 (failure (JStr ("Unsupported provider: "
                                                 ++ name))))))
                   with
                   | inl e => ([], throw e)
                   | inr (Respond r) => ([], ret r)
                   | inr (Request endpoint hdrs payload) =>
                       let call := mkCall endpoint "POST" hdrs
                                          (JSON_stringify payload) in
                       ([call], relay fetch (member reqBody "provider") call)
                   end).
  { rewrite chat_passes_presence; trivial.
    - cbv zeta. rewrite Hmsgs. simpl. rewrite Hadapt. reflexivity.
    - rewrite Hmsgs. reflexivity. }
  split.
  - intros name Hname. unfold chat. rewrite Htry, Hname. reflexivity.
  - intros e He. unfold chat. rewrite Htry, He. reflexivity.
Qed.

Lemma non_text_provider_unsupported_witness :
  chat unreachable
       (JObj [("provider", JArr [JStr "gemini"]); ("apiKey", JStr "k"); hello])
  = ([], mkReply 400 (failure (JStr "Unsupported provider: gemini"))).
Proof.
  apply (proj1 (non_text_provider_unsupported unreachable
                  (JObj [("provider", JArr [JStr "gemini"]);
                         ("apiKey", JStr "k"); hello])
                  (chat_message "user" "hi") []
                  eq_refl eq_refl eq_refl eq_refl eq_refl)
           "gemini" eq_refl).
Defined.
